(** * Run profiles of the RIDE test runner plugin

    A shallow embedding of [src/robotide/contrib/testrunner/runprofiles.py]
    and the properties of its two classes, [BaseProfile] and [PybotProfile].

    The module is Python 2 code: strings are byte strings ([str]), modelled
    as [string]; the profile instance is a Python object with a class and an
    attribute dictionary; the owning plugin and the wx toolkit are host
    objects, modelled as a record of settings and a store of widgets. *)

From Stdlib Require Import ZArith Ascii String.
From stdpp Require Import base option list gmap strings.

Set Default Proof Using "Type".

(** ** Python string methods used by the module *)

Module PyStr.

(** [c.isspace()] for a one-byte [str] in the C locale: tab, line feed,
    vertical tab, form feed, carriage return and space. *)
Definition isspace (c : ascii) : bool :=
  let n := nat_of_ascii c in
  ((9 <=? n) && (n <=? 13)) || (n =? 32).

(** [s.split(sep)] for a one-character separator: cuts at every occurrence
    of [sep]; [n] separators give [n + 1] segments, the empty string gives
    one empty segment. *)
Fixpoint split (sep : ascii) (s : string) : list string :=
  match s with
  | EmptyString => [EmptyString]
  | String c s' =>
      if Ascii.eqb c sep then EmptyString :: split sep s'
      else match split sep s' with
           | [] => [String c EmptyString]
           | seg :: segs => String c seg :: segs
           end
  end.

(** [s.lstrip()], [s.rstrip()] and [s.strip()] without argument. *)
Fixpoint lstrip (s : string) : string :=
  match s with
  | EmptyString => EmptyString
  | String c s' => if isspace c then lstrip s' else s
  end.

Fixpoint rstrip (s : string) : string :=
  match s with
  | EmptyString => EmptyString
  | String c s' =>
      match rstrip s' with
      | EmptyString => if isspace c then EmptyString else String c EmptyString
      | r => String c r
      end
  end.

Definition strip (s : string) : string := rstrip (lstrip s).

(** [sep.join(l)] *)
Fixpoint join (sep : string) (l : list string) : string :=
  match l with
  | [] => EmptyString
  | [s] => s
  | s :: l' => s +:+ sep +:+ join sep l'
  end.

(** ["<prefix>%s" % s] for a string [s]. *)
Definition format_s (prefix s : string) : string := prefix +:+ s.

(** [bool(s)]: a string is true when it is not empty. *)
Definition truthy (s : string) : bool :=
  match s with EmptyString => false | String _ _ => true end.

(** [s.startswith(p)] *)
Definition startswith (s p : string) : bool := String.prefix p s.

End PyStr.

(** ** Python values, exceptions and the state the module runs in *)

(** The two classes of the module. *)
Inductive cls := BaseProfile | PybotProfile.

Definition cls_name (c : cls) : string :=
  match c with BaseProfile => "BaseProfile" | PybotProfile => "PybotProfile" end.

(** The functions the two class bodies define, one token per [def]:
    those of [BaseProfile], then the [get_command_prefix] of
    [PybotProfile]. A bound method is what [panel.Bind] receives as a
    handler. *)
Inductive method :=
| m_init | m_get_toolbar | m_get_custom_args | m_get_command_prefix
| m_TagsPanel | m_create_checkbox | m_set_setting
| m_OnExcludeCheckbox | m_OnIncludeCheckbox
| m_OnIncludeTagsChanged | m_OnExcludeTagsChanged
| m_PybotProfile_get_command_prefix.

(** The values that the module stores in attributes or passes around:
    [None], booleans, strings, references to wx objects (the index of the
    object in the store), the plugin instance, and bound methods. *)
Inductive pyval :=
| VNone
| VBool (b : bool)
| VStr (s : string)
| VRef (r : nat)
| VPlugin
| VMethod (m : method).

#[global] Instance cls_eq_dec : EqDecision cls.
Proof. solve_decision. Defined.
#[global] Instance method_eq_dec : EqDecision method.
Proof. solve_decision. Defined.
#[global] Instance pyval_eq_dec : EqDecision pyval.
Proof. solve_decision. Defined.

Definition type_name (v : pyval) : string :=
  match v with
  | VNone => "NoneType"
  | VBool _ => "bool"
  | VStr _ => "str"
  | VRef _ => "wx.Object"
  | VPlugin => "Plugin"
  | VMethod _ => "instancemethod"
  end.

(** [AttributeError: '<type>' object has no attribute '<attr>'] *)
Inductive exn := AttributeError (type attr : string).

Inductive res (A : Type) :=
| Ok (a : A)
| Raise (e : exn).
Arguments Ok {A} a.
Arguments Raise {A} e.

(** One recorded call [plugin.save_setting(name, value, delay=d)]. *)
Record save_call := SaveCall {
  sc_name : string;
  sc_value : pyval;
  sc_delay : Z
}.

(** The plugin as this module sees it: the four settings it reads, and the
    calls of [save_setting] it has received, oldest first. *)
Record plugin_t := Plugin {
  apply_include_tags : bool;
  include_tags : string;
  apply_exclude_tags : bool;
  exclude_tags : string;
  save_calls : list save_call
}.

(** wx objects, with the constructor arguments and the fields the module
    sets. The toolkit is a host library: the store records what the module
    asks of it and gives every new object a fresh reference. *)
Definition wx_ID_ANY : Z := -1.
Definition wx_EXPAND : Z := 8192.

Inductive wx_event_type := EVT_CHECKBOX | EVT_TEXT.

Inductive wxobj :=
| Panel (parent : pyval) (id : Z) (sizer : option nat)
| CheckBox (parent : pyval) (id : Z) (label : string) (value : bool)
| TextCtrl (parent : pyval) (id : Z) (size : Z * Z) (value : string)
| GridBagSizer (vgap hgap : Z) (items : list (nat * (Z * Z) * Z))
    (growable_cols : list Z).

(** [target.Bind(event, handler, source)] *)
Record binding := Binding {
  b_target : nat;
  b_event : wx_event_type;
  b_handler : pyval;
  b_source : option pyval
}.

(** An event as the handlers see it: [evt.IsChecked()] and, for a text
    event, [evt.GetString()]. *)
Record event := Event {
  ev_type : wx_event_type;
  IsChecked : bool;
  GetString : string
}.

(** The state: the host ([os.name], the plugin, the wx objects and event
    bindings) and the profile instance [self] (its class and instance
    dictionary). *)
Record world := World {
  os_name : string;
  plugin : plugin_t;
  wx_objects : list wxobj;
  wx_bindings : list binding;
  self_class : cls;
  self_dict : gmap string pyval
}.

(** ** A state and exception monad

    A computation takes the state and gives a result or a raised exception,
    and the state it leaves. A raised exception skips the rest of the
    computation and keeps the state changes made before it. *)
Definition M (A : Type) : Type := world → res A * world.

Definition ret {A} (a : A) : M A := λ w, (Ok a, w).

Definition bind {A B} (m : M A) (k : A → M B) : M B :=
  λ w, match m w with
       | (Ok a, w') => k a w'
       | (Raise e, w') => (Raise e, w')
       end.

Definition raise {A} (e : exn) : M A := λ w, (Raise e, w).
Definition gets {A} (f : world → A) : M A := λ w, (Ok (f w), w).
Definition modify (f : world → world) : M unit := λ w, (Ok tt, f w).

Notation "x <- m ;; k" := (bind m (λ x, k))
  (at level 100, m at next level, right associativity,
   format "'[v' x  <-  m  ;;  '/' k ']'").
Notation "m ;;; k" := (bind m (λ _, k))
  (at level 100, right associativity,
   format "'[v' m  ;;;  '/' k ']'").

(** The result and the final state of a run. *)
Definition result {A} (m : M A) (w : world) : res A := (m w).1.
Definition final {A} (m : M A) (w : world) : world := (m w).2.

(** ** State accessors *)

Definition set_plugin (f : plugin_t → plugin_t) (w : world) : world :=
  World (os_name w) (f (plugin w)) (wx_objects w) (wx_bindings w)
        (self_class w) (self_dict w).

Definition set_wx_objects (f : list wxobj → list wxobj) (w : world) : world :=
  World (os_name w) (plugin w) (f (wx_objects w)) (wx_bindings w)
        (self_class w) (self_dict w).

Definition set_wx_bindings (f : list binding → list binding) (w : world) : world :=
  World (os_name w) (plugin w) (wx_objects w) (f (wx_bindings w))
        (self_class w) (self_dict w).

Definition set_self_dict (f : gmap string pyval → gmap string pyval)
    (w : world) : world :=
  World (os_name w) (plugin w) (wx_objects w) (wx_bindings w)
        (self_class w) (f (self_dict w)).

Definition set_self_class (c : cls) (w : world) : world :=
  World (os_name w) (plugin w) (wx_objects w) (wx_bindings w)
        c (self_dict w).

(** ** Attribute lookup on the profile instance *)

(** The name under which the package imports the module. *)
Definition module_name : string := "robotide.contrib.testrunner.runprofiles".

(** The docstrings of the two classes, as the source has them. *)
Definition BaseProfile_doc : string :=
  "Base class for all test runner profiles

    At a minimum each profile must set the name attribute, which is
    how the profile will appear in the dropdown list.
    
    This class (BaseProfile) will _not_ appear as one of the choices.
    Think of it as an abstract class, if Python 2.5 had such a thing.
    ".

Definition PybotProfile_doc : string :=
  "A runner profile which uses pybot

    It is assumed that these programs are on the path
    ".

(** The class dictionaries: what the two [class] statements bind, that is
    [__module__], the docstring, the class attributes and the functions.
    What every object has from [object] ([__class__], [__dict__] and the
    like) is not modelled; the module reads none of it. *)
Definition BaseProfile_dict : list (string * pyval) :=
  [ ("__module__", VStr module_name);
    ("__doc__", VStr BaseProfile_doc);
    ("plugin", VNone);
    ("__init__", VMethod m_init);
    ("get_toolbar", VMethod m_get_toolbar);
    ("get_custom_args", VMethod m_get_custom_args);
    ("get_command_prefix", VMethod m_get_command_prefix);
    ("TagsPanel", VMethod m_TagsPanel);
    ("_create_checkbox", VMethod m_create_checkbox);
    ("set_setting", VMethod m_set_setting);
    ("OnExcludeCheckbox", VMethod m_OnExcludeCheckbox);
    ("OnIncludeCheckbox", VMethod m_OnIncludeCheckbox);
    ("OnIncludeTagsChanged", VMethod m_OnIncludeTagsChanged);
    ("OnExcludeTagsChanged", VMethod m_OnExcludeTagsChanged) ].

Definition PybotProfile_dict : list (string * pyval) :=
  [ ("__module__", VStr module_name);
    ("__doc__", VStr PybotProfile_doc);
    ("name", VStr "pybot");
    ("get_command_prefix", VMethod m_PybotProfile_get_command_prefix) ].

Definition class_dict (c : cls) : gmap string pyval :=
  match c with
  | BaseProfile => list_to_map BaseProfile_dict
  | PybotProfile => list_to_map PybotProfile_dict
  end.

(** The method resolution order: the class, then its bases. *)
Definition mro (c : cls) : list cls :=
  match c with
  | BaseProfile => [BaseProfile]
  | PybotProfile => [PybotProfile; BaseProfile]
  end.

Fixpoint class_lookup (cs : list cls) (attr : string) : option pyval :=
  match cs with
  | [] => None
  | c :: cs' =>
      match class_dict c !! attr with
      | Some v => Some v
      | None => class_lookup cs' attr
      end
  end.

(** [self.<attr>]: the instance dictionary first, then the classes of the
    method resolution order, else [AttributeError]. *)
Definition getattr_self (attr : string) : M pyval :=
  λ w, match self_dict w !! attr with
       | Some v => (Ok v, w)
       | None =>
           match class_lookup (mro (self_class w)) attr with
           | Some v => (Ok v, w)
           | None => (Raise (AttributeError (cls_name (self_class w)) attr), w)
           end
       end.

(** [self.<attr> = v] *)
Definition setattr_self (attr : string) (v : pyval) : M unit :=
  modify (set_self_dict (λ d, <[attr := v]> d)).

(** ** The plugin *)

(** [self.plugin.<attr>] for one of the four settings. *)
Definition plugin_attr {A} (attr : string) (proj : plugin_t → A) : M A :=
  p <- getattr_self "plugin";;
  match p with
  | VPlugin => gets (λ w, proj (plugin w))
  | _ => raise (AttributeError (type_name p) attr)
  end.

(** Modelled from the spec: the plugin's [save_setting(name, value, delay)]
    belongs to the host and is not in this module. The spec gives it as the
    write operation of the four settings, by simple field assignment, with a
    delay hint; the model records the call and assigns the field when the
    name is one of the four settings and the value has the field's type. *)
Definition save_setting (name : string) (value : pyval) (delay : Z)
    (p : plugin_t) : plugin_t :=
  let calls := save_calls p ++ [SaveCall name value delay] in
  match value with
  | VBool b =>
      if String.eqb name "apply_include_tags" then
        Plugin b (include_tags p) (apply_exclude_tags p) (exclude_tags p) calls
      else if String.eqb name "apply_exclude_tags" then
        Plugin (apply_include_tags p) (include_tags p) b (exclude_tags p) calls
      else
        Plugin (apply_include_tags p) (include_tags p)
               (apply_exclude_tags p) (exclude_tags p) calls
  | VStr s =>
      if String.eqb name "include_tags" then
        Plugin (apply_include_tags p) s (apply_exclude_tags p) (exclude_tags p) calls
      else if String.eqb name "exclude_tags" then
        Plugin (apply_include_tags p) (include_tags p) (apply_exclude_tags p) s calls
      else
        Plugin (apply_include_tags p) (include_tags p)
               (apply_exclude_tags p) (exclude_tags p) calls
  | _ =>
      Plugin (apply_include_tags p) (include_tags p)
             (apply_exclude_tags p) (exclude_tags p) calls
  end.

(** [self.plugin.save_setting(name, value, delay=d)] *)
Definition plugin_save_setting (name : string) (value : pyval) (delay : Z)
    : M unit :=
  p <- getattr_self "plugin";;
  match p with
  | VPlugin => modify (set_plugin (save_setting name value delay))
  | _ => raise (AttributeError (type_name p) "save_setting")
  end.

(** ** The wx toolkit *)

(** A constructor call: the new object gets the next free reference. *)
Definition wx_new (o : wxobj) : M pyval :=
  λ w, (Ok (VRef (length (wx_objects w))),
        set_wx_objects (λ os, os ++ [o]) w).

(** A method call [obj.<name>(...)] that updates the object; [f] gives the
    updated object, or [None] when the object has no such method. *)
Definition wx_method (obj : pyval) (name : string)
    (f : wxobj → option wxobj) : M unit :=
  λ w, match obj with
       | VRef r =>
           match wx_objects w !! r ≫= f with
           | Some o' => (Ok tt, set_wx_objects (λ os, <[r := o']> os) w)
           | None => (Raise (AttributeError (type_name obj) name), w)
           end
       | _ => (Raise (AttributeError (type_name obj) name), w)
       end.

Definition wx_Panel (parent : pyval) (id : Z) : M pyval :=
  wx_new (Panel parent id None).

Definition wx_CheckBox (parent : pyval) (id : Z) (label : string) : M pyval :=
  wx_new (CheckBox parent id label false).

Definition wx_TextCtrl (parent : pyval) (id : Z) (size : Z * Z)
    (value : string) : M pyval :=
  wx_new (TextCtrl parent id size value).

Definition wx_GridBagSizer (vgap hgap : Z) : M pyval :=
  wx_new (GridBagSizer vgap hgap [] []).

Definition SetValue (obj : pyval) (value : bool) : M unit :=
  wx_method obj "SetValue"
    (λ o, match o with
          | CheckBox p i l _ => Some (CheckBox p i l value)
          | _ => None
          end).

(** [obj.GetValue()]: the text of a text control, the state of a checkbox. *)
Definition GetValue (obj : pyval) : M pyval :=
  λ w, match obj with
       | VRef r =>
           match wx_objects w !! r with
           | Some (TextCtrl _ _ _ v) => (Ok (VStr v), w)
           | Some (CheckBox _ _ _ b) => (Ok (VBool b), w)
           | _ => (Raise (AttributeError (type_name obj) "GetValue"), w)
           end
       | _ => (Raise (AttributeError (type_name obj) "GetValue"), w)
       end.

(** [target.Bind(event, handler, source)]; every window has [Bind]. *)
Definition Bind (target : pyval) (ev : wx_event_type) (handler : pyval)
    (source : option pyval) : M unit :=
  λ w, match target with
       | VRef r =>
           match wx_objects w !! r with
           | Some (GridBagSizer _ _ _ _) | None =>
               (Raise (AttributeError (type_name target) "Bind"), w)
           | Some _ =>
               (Ok tt, set_wx_bindings
                         (λ bs, bs ++ [Binding r ev handler source]) w)
           end
       | _ => (Raise (AttributeError (type_name target) "Bind"), w)
       end.

(** [sizer.Add(item, pos, flag=flag)] *)
Definition Add (sizer item : pyval) (pos : Z * Z) (flag : Z) : M unit :=
  wx_method sizer "Add"
    (λ o, match o, item with
          | GridBagSizer v h items cols, VRef i =>
              Some (GridBagSizer v h (items ++ [(i, pos, flag)]) cols)
          | _, _ => None
          end).

Definition AddGrowableCol (sizer : pyval) (idx : Z) : M unit :=
  wx_method sizer "AddGrowableCol"
    (λ o, match o with
          | GridBagSizer v h items cols =>
              Some (GridBagSizer v h items (cols ++ [idx]))
          | _ => None
          end).

Definition SetSizerAndFit (panel sizer : pyval) : M unit :=
  wx_method panel "SetSizerAndFit"
    (λ o, match o, sizer with
          | Panel p i _, VRef s => Some (Panel p i (Some s))
          | _, _ => None
          end).

(** ** The methods of [BaseProfile] and [PybotProfile] *)

(** A [for] loop over a list whose body updates a local variable. *)
Definition for_each {A S} (l : list A) (body : A → S → S) (s : S) : S :=
  fold_left (λ s a, body a s) l s.

(** [a and b] as an [if] condition: [b] is evaluated only when [a] is true. *)
Definition py_and (a b : M bool) : M bool :=
  x <- a;;
  if x then b else ret false.

(** [__init__(self, plugin)] *)
Definition __init__ (plugin : pyval) : M unit :=
  setattr_self "plugin" plugin;;;
  setattr_self "toolbar" VNone.

(** [cls(plugin)]: a new instance of class [c], then [__init__]. *)
Definition new (c : cls) (plugin : pyval) : M unit :=
  modify (λ w, set_self_dict (λ _, ∅) (set_self_class c w));;;
  __init__ plugin.

(** [_create_checkbox(self, parent, value, title)] *)
Definition _create_checkbox (parent : pyval) (value : bool) (title : string)
    : M pyval :=
  checkbox <- wx_CheckBox parent wx_ID_ANY title;;
  SetValue checkbox value;;;
  ret checkbox.

(** [TagsPanel(self, parent)] *)
Definition TagsPanel (parent : pyval) : M pyval :=
  panel <- wx_Panel parent wx_ID_ANY;;
  apply_inc <- plugin_attr "apply_include_tags" apply_include_tags;;
  include_cb <- _create_checkbox panel apply_inc
                  "Only run tests with these tags";;
  apply_exc <- plugin_attr "apply_exclude_tags" apply_exclude_tags;;
  exclude_cb <- _create_checkbox panel apply_exc
                  "Skip tests with these tags";;
  inc <- plugin_attr "include_tags" include_tags;;
  include_tags <- wx_TextCtrl panel wx_ID_ANY (150, -1)%Z inc;;
  exc <- plugin_attr "exclude_tags" exclude_tags;;
  exclude_tags <- wx_TextCtrl panel wx_ID_ANY (150, -1)%Z exc;;

  h <- getattr_self "OnIncludeCheckbox";;
  Bind panel EVT_CHECKBOX h (Some include_cb);;;
  h <- getattr_self "OnExcludeCheckbox";;
  Bind panel EVT_CHECKBOX h (Some exclude_cb);;;
  h <- getattr_self "OnIncludeTagsChanged";;
  Bind include_tags EVT_TEXT h None;;;
  h <- getattr_self "OnExcludeTagsChanged";;
  Bind exclude_tags EVT_TEXT h None;;;

  panelsizer <- wx_GridBagSizer 2 2;;
  Add panelsizer include_cb (0, 0)%Z wx_EXPAND;;;
  Add panelsizer exclude_cb (0, 1)%Z wx_EXPAND;;;
  Add panelsizer include_tags (1, 0)%Z wx_EXPAND;;;
  Add panelsizer exclude_tags (1, 1)%Z wx_EXPAND;;;
  AddGrowableCol panelsizer 0;;;
  AddGrowableCol panelsizer 1;;;
  SetSizerAndFit panel panelsizer;;;
  ret panel.

(** [get_toolbar(self, parent)] *)
Definition get_toolbar (parent : pyval) : M pyval :=
  toolbar <- getattr_self "toolbar";;
  match toolbar with
  | VNone =>
      panel <- TagsPanel parent;;
      setattr_self "toolbar" panel
  | _ => ret tt
  end;;;
  getattr_self "toolbar".

(** The body of the two loops of [get_custom_args]:
    [x = x.strip(); if len(x) > 0: args.append("<option>%s" % x)]. *)
Definition append_tag (option : string) (tag : string) (args : list string)
    : list string :=
  let tag := PyStr.strip tag in
  if (0 <? String.length tag)%nat
  then args ++ [PyStr.format_s option tag]
  else args.

(** [get_custom_args(self)] *)
Definition get_custom_args : M (list string) :=
  let args := [] in
  c <- py_and (plugin_attr "apply_include_tags" apply_include_tags)
              (plugin_attr "include_tags" (PyStr.truthy ∘ include_tags));;
  args <- (if c : bool then
             tags <- plugin_attr "include_tags" include_tags;;
             ret (for_each (PyStr.split "," tags) (append_tag "--include=") args)
           else ret args);;
  c <- py_and (plugin_attr "apply_exclude_tags" apply_exclude_tags)
              (plugin_attr "exclude_tags" (PyStr.truthy ∘ exclude_tags));;
  args <- (if c : bool then
             tags <- plugin_attr "exclude_tags" exclude_tags;;
             ret (for_each (PyStr.split "," tags) (append_tag "--exclude=") args)
           else ret args);;
  ret args.

(** [BaseProfile.get_command_prefix(self)] *)
Definition BaseProfile_get_command_prefix : M (list string) :=
  name <- gets os_name;;
  if String.eqb name "nt" then ret ["pybot.bat"] else ret ["pybot"].

(** [PybotProfile.get_command_prefix(self)] *)
Definition PybotProfile_get_command_prefix : M (list string) :=
  name <- gets os_name;;
  if String.eqb name "nt" then ret ["pybot.bat"] else ret ["pybot"].

(** [self.get_command_prefix()]: the method of the instance's class. *)
Definition get_command_prefix : M (list string) :=
  c <- gets self_class;;
  match c with
  | BaseProfile => BaseProfile_get_command_prefix
  | PybotProfile => PybotProfile_get_command_prefix
  end.

(** [set_setting(self, name, value)] *)
Definition set_setting (name : string) (value : pyval) : M unit :=
  plugin_save_setting name value 2.

Definition OnExcludeCheckbox (evt : event) : M unit :=
  set_setting "apply_exclude_tags" (VBool (IsChecked evt)).

Definition OnIncludeCheckbox (evt : event) : M unit :=
  set_setting "apply_include_tags" (VBool (IsChecked evt)).

Definition OnIncludeTagsChanged (evt : event) : M unit :=
  ctrl <- getattr_self "includeTags";;
  value <- GetValue ctrl;;
  set_setting "include_tags" value.

Definition OnExcludeTagsChanged (evt : event) : M unit :=
  ctrl <- getattr_self "excludeTags";;
  value <- GetValue ctrl;;
  set_setting "exclude_tags" value.

(** ** Calls made on a profile instance by the host *)

(** The calls that the host makes on an instance after it has constructed
    it: the methods of the class and the event handlers bound to the panel. *)
Inductive call :=
| call_get_toolbar (parent : pyval)
| call_get_custom_args
| call_get_command_prefix
| call_TagsPanel (parent : pyval)
| call_create_checkbox (parent : pyval) (value : bool) (title : string)
| call_set_setting (name : string) (value : pyval)
| call_OnExcludeCheckbox (evt : event)
| call_OnIncludeCheckbox (evt : event)
| call_OnIncludeTagsChanged (evt : event)
| call_OnExcludeTagsChanged (evt : event).

(** The state after a call; the host's event loop survives an exception,
    and the state is the one the exception left. *)
Definition run_call (c : call) (w : world) : world :=
  match c with
  | call_get_toolbar parent => final (get_toolbar parent) w
  | call_get_custom_args => final get_custom_args w
  | call_get_command_prefix => final get_command_prefix w
  | call_TagsPanel parent => final (TagsPanel parent) w
  | call_create_checkbox parent value title =>
      final (_create_checkbox parent value title) w
  | call_set_setting name value => final (set_setting name value) w
  | call_OnExcludeCheckbox evt => final (OnExcludeCheckbox evt) w
  | call_OnIncludeCheckbox evt => final (OnIncludeCheckbox evt) w
  | call_OnIncludeTagsChanged evt => final (OnIncludeTagsChanged evt) w
  | call_OnExcludeTagsChanged evt => final (OnExcludeTagsChanged evt) w
  end.

Definition run_calls (cs : list call) (w : world) : world :=
  fold_left (λ w c, run_call c w) cs w.

(** ** The argument list in the words of the specification *)

(** The tags of a comma-separated string: split on commas, trim each
    segment, drop the empty ones. *)
Definition tag_segments (tags : string) : list string :=
  filter (λ s, s ≠ EmptyString) (PyStr.strip <$> PyStr.split "," tags).

(** The tokens of one side: none unless the apply flag is set and the string
    is not empty, else one [<option><tag>] per tag, in order. *)
Definition side_tokens (option : string) (apply : bool) (tags : string)
    : list string :=
  if apply && PyStr.truthy tags
  then (λ tag, option +:+ tag) <$> tag_segments tags
  else [].

Definition is_include (token : string) : Prop :=
  PyStr.startswith token "--include=" = true.
Definition is_exclude (token : string) : Prop :=
  PyStr.startswith token "--exclude=" = true.

(** ** Sample states *)

Definition sample_plugin : plugin_t :=
  Plugin true "a, b ,,c" false "smoke" [].

Definition both_plugin : plugin_t :=
  Plugin true "a, b ,,c" true "x" [].

(** A [PybotProfile] constructed for plugin [p] on host [os]. *)
Definition fresh (os : string) (p : plugin_t) : world :=
  final (new PybotProfile VPlugin) (World os p [] [] BaseProfile ∅).

Definition sample_world : world := fresh "posix" sample_plugin.
Definition both_world : world := fresh "posix" both_plugin.

(** ** Predicates used in the statements *)

(** A computation that only reads: it leaves every state as it found it,
    whether it returns or raises. *)
Definition read_only {A} (m : M A) : Prop := ∀ w, final m w = w.

(** [c] occurs in [s]. *)
Fixpoint contains (c : ascii) (s : string) : Prop :=
  match s with
  | EmptyString => False
  | String c' s' => c' = c ∨ contains c s'
  end.

(** [s] is made of whitespace only; [s] starts, ends with whitespace. *)
Fixpoint all_space (s : string) : Prop :=
  match s with
  | EmptyString => True
  | String c s' => PyStr.isspace c = true ∧ all_space s'
  end.

Definition starts_with_space (s : string) : Prop :=
  match s with
  | EmptyString => False
  | String c _ => PyStr.isspace c = true
  end.

Fixpoint ends_with_space (s : string) : Prop :=
  match s with
  | EmptyString => False
  | String c EmptyString => PyStr.isspace c = true
  | String _ s' => ends_with_space s'
  end.

(** The objects that [TagsPanel(parent)] creates when the store holds [n]
    objects and the plugin is [pl], and the bindings it makes. *)
Definition TagsPanel_objects (parent : pyval) (pl : plugin_t) (n : nat)
    : list wxobj :=
  [ Panel parent wx_ID_ANY (Some (n + 5));
    CheckBox (VRef n) wx_ID_ANY "Only run tests with these tags"
             (apply_include_tags pl);
    CheckBox (VRef n) wx_ID_ANY "Skip tests with these tags"
             (apply_exclude_tags pl);
    TextCtrl (VRef n) wx_ID_ANY (150, -1)%Z (include_tags pl);
    TextCtrl (VRef n) wx_ID_ANY (150, -1)%Z (exclude_tags pl);
    GridBagSizer 2 2
      [ (n + 1, (0, 0)%Z, wx_EXPAND); (n + 2, (0, 1)%Z, wx_EXPAND);
        (n + 3, (1, 0)%Z, wx_EXPAND); (n + 4, (1, 1)%Z, wx_EXPAND) ]
      [0%Z; 1%Z] ].

Definition TagsPanel_bindings (d : gmap string pyval) (n : nat)
    : list binding :=
  [ Binding n EVT_CHECKBOX
      (default (VMethod m_OnIncludeCheckbox) (d !! "OnIncludeCheckbox"))
      (Some (VRef (n + 1)));
    Binding n EVT_CHECKBOX
      (default (VMethod m_OnExcludeCheckbox) (d !! "OnExcludeCheckbox"))
      (Some (VRef (n + 2)));
    Binding (n + 3) EVT_TEXT
      (default (VMethod m_OnIncludeTagsChanged) (d !! "OnIncludeTagsChanged"))
      None;
    Binding (n + 4) EVT_TEXT
      (default (VMethod m_OnExcludeTagsChanged) (d !! "OnExcludeTagsChanged"))
      None ].

(** The instance dictionary after [__init__(plugin)] with the owning plugin
    and any number of calls: [plugin] is the plugin, [toolbar] is set, and
    there is no other instance attribute. *)
Definition constructed (w : world) : Prop :=
  self_dict w !! "plugin" = Some VPlugin
  ∧ is_Some (self_dict w !! "toolbar")
  ∧ ∀ attr, attr ≠ "plugin" → attr ≠ "toolbar" → self_dict w !! attr = None.

(** The state of an instance of class [c] that the host constructed in
    state [w0] and then called [cs] on. *)
Definition host_state (c : cls) (w0 : world) (cs : list call) : world :=
  run_calls cs (final (new c VPlugin) w0).

(** More sample states and calls. *)
Definition flag_off_world : world :=
  fresh "posix" (Plugin false "a, b ,,c" true "slow,  wip" []).

Definition later_calls : list call :=
  [ call_OnIncludeCheckbox (Event EVT_CHECKBOX false "");
    call_TagsPanel (VRef 8);
    call_OnIncludeTagsChanged (Event EVT_TEXT false "smoke");
    call_get_toolbar (VRef 8);
    call_get_custom_args ].

(** A tag as a token should carry it: not empty, without a comma, and
    without whitespace at either end. *)
Definition clean_tag (tag : string) : Prop :=
  tag ≠ EmptyString ∧ ¬ contains "," tag
  ∧ ¬ starts_with_space tag ∧ ¬ ends_with_space tag.

(** [s] is made of commas and whitespace only. *)
Fixpoint blank (s : string) : Prop :=
  match s with
  | EmptyString => True
  | String c s' => (c = ","%char ∨ PyStr.isspace c = true) ∧ blank s'
  end.

(** [s.count(c)] *)
Fixpoint count_char (c : ascii) (s : string) : nat :=
  match s with
  | EmptyString => 0
  | String c' s' => (if Ascii.eqb c' c then 1 else 0) + count_char c s'
  end.

(** [self.plugin] is [None]: [__init__] was given [None], or the instance
    has no [plugin] attribute of its own and the class attribute
    [plugin = None] of [BaseProfile] is found. *)
Definition plugin_unset (w : world) : Prop :=
  default VNone (self_dict w !! "plugin") = VNone.

(** The calls whose code reaches [self.plugin.save_setting]. *)
Definition calls_save_setting (cl : call) : bool :=
  match cl with
  | call_set_setting _ _ | call_OnExcludeCheckbox _
  | call_OnIncludeCheckbox _ => true
  | _ => false
  end.

(** An instance whose [plugin] is unset, and one on which the host has set
    the attribute [includeTags] to the include text control of the panel. *)
Definition unset_world : world :=
  final (new PybotProfile VNone) (World "posix" sample_plugin [] [] BaseProfile ∅).

Definition patched_world : world :=
  final (setattr_self "includeTags" (VRef 3))
    (final (setattr_self "excludeTags" (VRef 4))
       (final (get_toolbar (VRef 7)) both_world)).

(** The same with [includeTags] only. *)
Definition include_only_world : world :=
  final (setattr_self "includeTags" (VRef 3))
    (final (get_toolbar (VRef 7)) both_world).

Definition clean_world : world :=
  fresh "nt" (Plugin true (PyStr.join "," ["smoke"; "fast run"; "smoke"])
                     true (PyStr.join "," ["wip"]) []).

Definition blank_world : world :=
  fresh "posix" (Plugin true " , ,,	" true "," []).

(** * Properties *)

(** ** The monad *)

Lemma bind_ok {A B} (m : M A) (k : A → M B) w a w' :
  m w = (Ok a, w') → bind m k w = k a w'.
Proof. intros H. unfold bind. by rewrite H. Qed.

Lemma bind_raise {A B} (m : M A) (k : A → M B) w e w' :
  m w = (Raise e, w') → bind m k w = (Raise e, w').
Proof. intros H. unfold bind. by rewrite H. Qed.

Create HintDb read_only discriminated.

Lemma read_only_ret {A} (a : A) : read_only (ret a).
Proof. done. Qed.

Lemma read_only_raise {A} e : read_only (raise (A:=A) e).
Proof. done. Qed.

Lemma read_only_gets {A} (f : world → A) : read_only (gets f).
Proof. done. Qed.

Lemma read_only_bind {A B} (m : M A) (k : A → M B) :
  read_only m → (∀ a, read_only (k a)) → read_only (bind m k).
Proof.
  intros Hm Hk w. unfold final, bind.
  specialize (Hm w). unfold final in Hm.
  destruct (m w) as [[a|e] w1]; simpl in *; subst w1; [apply Hk | done].
Qed.

Lemma read_only_if {A} (b : bool) (m1 m2 : M A) :
  read_only m1 → read_only m2 → read_only (if b then m1 else m2).
Proof. by destruct b. Qed.

Lemma read_only_getattr_self attr : read_only (getattr_self attr).
Proof.
  intros w. unfold final, getattr_self.
  destruct (self_dict w !! attr); [done|].
  by destruct (class_lookup _ _).
Qed.

#[export] Hint Resolve read_only_ret read_only_raise read_only_gets
  read_only_getattr_self : read_only.
#[export] Hint Extern 2 (read_only (bind _ _)) =>
  apply read_only_bind; [|intros ?] : read_only.
#[export] Hint Extern 2 (read_only (if _ then _ else _)) =>
  apply read_only_if : read_only.

Lemma read_only_plugin_attr {A} attr (proj : plugin_t → A) :
  read_only (plugin_attr attr proj).
Proof.
  unfold plugin_attr. apply read_only_bind; [auto with read_only|].
  intros []; auto with read_only.
Qed.

#[export] Hint Resolve read_only_plugin_attr : read_only.

Lemma read_only_py_and a b : read_only a → read_only b → read_only (py_and a b).
Proof. intros Ha Hb. unfold py_and. auto with read_only. Qed.

#[export] Hint Resolve read_only_py_and : read_only.

Lemma read_only_get_custom_args : read_only get_custom_args.
Proof. unfold get_custom_args. auto 10 with read_only. Qed.

Lemma read_only_get_command_prefix : read_only get_command_prefix.
Proof.
  unfold get_command_prefix, BaseProfile_get_command_prefix,
    PybotProfile_get_command_prefix.
  apply read_only_bind; [auto with read_only|].
  intros []; auto 6 with read_only.
Qed.

(** ** Reading the plugin from a constructed instance *)

Lemma getattr_self_dict attr v w :
  self_dict w !! attr = Some v → getattr_self attr w = (Ok v, w).
Proof. intros H. unfold getattr_self. by rewrite H. Qed.

Lemma plugin_attr_ok {A} attr (proj : plugin_t → A) w :
  self_dict w !! "plugin" = Some VPlugin →
  plugin_attr attr proj w = (Ok (proj (plugin w)), w).
Proof.
  intros H. unfold plugin_attr.
  by rewrite (bind_ok _ _ _ _ _ (getattr_self_dict _ _ _ H)).
Qed.

Lemma plugin_save_setting_ok name value delay w :
  self_dict w !! "plugin" = Some VPlugin →
  plugin_save_setting name value delay w
  = (Ok tt, set_plugin (save_setting name value delay) w).
Proof.
  intros H. unfold plugin_save_setting.
  by rewrite (bind_ok _ _ _ _ _ (getattr_self_dict _ _ _ H)).
Qed.

(** ** The loops of [get_custom_args] *)

Lemma append_tag_empty option tag args :
  PyStr.strip tag = EmptyString → append_tag option tag args = args.
Proof. intros H. unfold append_tag. by rewrite H. Qed.

Lemma append_tag_nonempty option tag args :
  PyStr.strip tag ≠ EmptyString →
  append_tag option tag args = args ++ [option +:+ PyStr.strip tag].
Proof.
  intros H. unfold append_tag, PyStr.format_s.
  by destruct (PyStr.strip tag).
Qed.

(** The loop appends to [args] the token of every segment that is not empty
    once trimmed, in the order of the segments. *)
Lemma for_each_append_tag option segs args :
  for_each segs (append_tag option) args
  = args ++ ((λ tag, option +:+ tag)
               <$> filter (λ s, s ≠ EmptyString) (PyStr.strip <$> segs)).
Proof.
  unfold for_each. revert args.
  induction segs as [|seg segs IH]; intros args; simpl.
  - by rewrite app_nil_r.
  - rewrite IH. destruct (decide (PyStr.strip seg = EmptyString)) as [He|Hne].
    + rewrite append_tag_empty by done.
      by rewrite filter_cons_False by (by intros ?).
    + rewrite append_tag_nonempty by done.
      rewrite filter_cons_True by done.
      by rewrite fmap_cons, <- app_assoc.
Qed.

(** On an instance whose [plugin] attribute is the plugin,
    [get_custom_args] returns the include tokens followed by the exclude
    tokens and leaves the state as it is. *)
Lemma get_custom_args_run w :
  self_dict w !! "plugin" = Some VPlugin →
  get_custom_args w
  = (Ok (side_tokens "--include=" (apply_include_tags (plugin w))
                     (include_tags (plugin w))
         ++ side_tokens "--exclude=" (apply_exclude_tags (plugin w))
                        (exclude_tags (plugin w))), w).
Proof.
  intros H.
  unfold get_custom_args, py_and, side_tokens, tag_segments, bind, ret.
  pose proof (λ A attr proj, @plugin_attr_ok A attr proj w H) as Hp.
  rewrite !Hp.
  destruct (apply_include_tags (plugin w)); simpl; rewrite ?Hp; simpl;
    [destruct (PyStr.truthy (include_tags (plugin w))); simpl;
     rewrite ?Hp; simpl|];
    (destruct (apply_exclude_tags (plugin w)); simpl; rewrite ?Hp; simpl;
     [destruct (PyStr.truthy (exclude_tags (plugin w))); simpl;
      rewrite ?Hp; simpl|]);
    by rewrite ?for_each_append_tag, ?app_nil_r.
Qed.

(** ** Tokens and their option prefix *)

Lemma prefix_append (p s : string) : String.prefix p (p +:+ s) = true.
Proof.
  induction p as [|c p IH]; simpl.
  - by destruct s.
  - by destruct (ascii_dec c c).
Qed.

Lemma include_not_exclude token : is_include token → ¬ is_exclude token.
Proof.
  unfold is_include, is_exclude, PyStr.startswith. intros Hi He.
  apply String.prefix_correct in Hi, He.
  simpl String.length in *. congruence.
Qed.

Lemma side_tokens_include apply tags :
  Forall is_include (side_tokens "--include=" apply tags).
Proof.
  unfold side_tokens. destruct (_ && _); [|constructor].
  apply Forall_fmap, Forall_true. intros tag. apply prefix_append.
Qed.

Lemma side_tokens_exclude apply tags :
  Forall is_exclude (side_tokens "--exclude=" apply tags).
Proof.
  unfold side_tokens. destruct (_ && _); [|constructor].
  apply Forall_fmap, Forall_true. intros tag. apply prefix_append.
Qed.

Lemma side_tokens_on option tags :
  tags ≠ EmptyString →
  side_tokens option true tags = (λ tag, option +:+ tag) <$> tag_segments tags.
Proof. intros H. unfold side_tokens. by destruct tags. Qed.

Lemma side_tokens_off option apply tags :
  apply = false ∨ tags = EmptyString → side_tokens option apply tags = [].
Proof.
  unfold side_tokens. intros [-> | ->]; [done|]. by rewrite andb_false_r.
Qed.

(** In a list made of include tokens followed by exclude tokens, every
    include token stands before every exclude token. *)
Lemma include_before_exclude (incs excs : list string) i j ti tj :
  Forall is_include incs → Forall is_exclude excs →
  (incs ++ excs) !! i = Some ti → (incs ++ excs) !! j = Some tj →
  is_include ti → is_exclude tj → i < j.
Proof.
  intros Hincs Hexcs Hi Hj Hti Htj.
  assert (i < length incs) as Hlt.
  { destruct (decide (i < length incs)) as [|Hge]; [done|].
    rewrite lookup_app_r in Hi by lia.
    apply list_elem_of_lookup_2 in Hi.
    rewrite Forall_forall in Hexcs.
    by destruct (include_not_exclude ti Hti (Hexcs _ Hi)). }
  assert (length incs ≤ j); [|lia].
  destruct (decide (length incs ≤ j)) as [|Hlt']; [done|].
  rewrite lookup_app_l in Hj by lia.
  apply list_elem_of_lookup_2 in Hj.
  rewrite Forall_forall in Hincs.
  by destruct (include_not_exclude tj (Hincs _ Hj) Htj).
Qed.

(** ** The string methods *)

Example split_ex : PyStr.split "," "a, b ,,c" = ["a"; " b "; ""; "c"].
Proof. reflexivity. Qed.

Example split_empty_ex : PyStr.split "," "" = [""].
Proof. reflexivity. Qed.

Example strip_ex : PyStr.strip "  a b	 " = "a b".
Proof. reflexivity. Qed.

Lemma split_nonempty sep s : PyStr.split sep s ≠ [].
Proof.
  destruct s as [|c s]; simpl; [done|].
  destruct (Ascii.eqb c sep); [done|]. by destruct (PyStr.split sep s).
Qed.

Lemma join_cons sep seg segs :
  segs ≠ [] →
  PyStr.join sep (seg :: segs) = seg +:+ sep +:+ PyStr.join sep segs.
Proof. by destruct segs. Qed.

(** Joining the segments with the separator gives the string back. *)
Lemma join_split sep s :
  PyStr.join (String sep EmptyString) (PyStr.split sep s) = s.
Proof.
  induction s as [|c s IH]; simpl; [done|].
  destruct (Ascii.eqb_spec c sep) as [->|Hne].
  - rewrite join_cons by apply split_nonempty. simpl. by rewrite IH.
  - destruct (PyStr.split sep s) as [|seg segs] eqn:Hs.
    + by destruct (split_nonempty sep s).
    + destruct segs as [|seg' segs]; simpl in *; by rewrite <- IH.
Qed.

(** No segment contains the separator. *)
Lemma split_no_sep sep s :
  Forall (λ seg, ¬ contains sep seg) (PyStr.split sep s).
Proof.
  induction s as [|c s IH]; simpl.
  - repeat constructor. by intros [].
  - destruct (Ascii.eqb_spec c sep) as [->|Hne].
    + constructor; [by intros []|done].
    + destruct (PyStr.split sep s) as [|seg segs]; simpl.
      * repeat constructor. by intros [|[]].
      * inversion_clear IH as [|? ? Hseg Hsegs].
        constructor; [|done]. by intros [|].
Qed.

Lemma append_String c (a b : string) : String c a +:+ b = String c (a +:+ b).
Proof. reflexivity. Qed.

Lemma lstrip_spec s :
  ∃ l, s = l +:+ PyStr.lstrip s ∧ all_space l
       ∧ ¬ starts_with_space (PyStr.lstrip s).
Proof.
  induction s as [|c s (l & Hl & Hsp & Hst)]; simpl.
  - exists EmptyString. simpl. tauto.
  - destruct (PyStr.isspace c) eqn:Hc.
    + exists (String c l). rewrite append_String, <- Hl. simpl. tauto.
    + exists EmptyString. simpl. rewrite Hc. split_and!; [done..|congruence].
Qed.

Lemma rstrip_spec s :
  ∃ r, s = PyStr.rstrip s +:+ r ∧ all_space r
       ∧ ¬ ends_with_space (PyStr.rstrip s)
       ∧ (¬ starts_with_space s → ¬ starts_with_space (PyStr.rstrip s)).
Proof.
  induction s as [|c s (r & Hr & Hsp & Hend & _)]; simpl.
  - exists EmptyString. simpl. tauto.
  - destruct (PyStr.rstrip s) as [|c' s'] eqn:Hs; simpl in *.
    + destruct (PyStr.isspace c) eqn:Hc.
      * exists (String c r). simpl. split_and!; [by subst s|tauto..].
      * exists r. simpl. rewrite Hc. split_and!; [by subst s|done|congruence..].
    + exists r. rewrite append_String, <- Hr. tauto.
Qed.

(** [strip] removes a run of whitespace at each end and nothing else, and
    what is left neither starts nor ends with whitespace. *)
Lemma strip_spec s :
  ∃ l r, s = l +:+ PyStr.strip s +:+ r ∧ all_space l ∧ all_space r
         ∧ ¬ starts_with_space (PyStr.strip s)
         ∧ ¬ ends_with_space (PyStr.strip s).
Proof.
  unfold PyStr.strip.
  destruct (lstrip_spec s) as (l & Hl & Hsl & Hst).
  destruct (rstrip_spec (PyStr.lstrip s)) as (r & Hr & Hsr & Hend & Hkeep).
  exists l, r. rewrite <- Hr. split_and!; auto.
Qed.

(** ** [get_custom_args] *)

(** C1, as amended. On every instance that holds its plugin,
    [get_custom_args] returns the tokens of the include side followed by the
    tokens of the exclude side and nothing else. A side whose apply flag is
    true and whose tag string is not empty gives one [--include=<tag>]
    (resp. [--exclude=<tag>]) token per segment of the string that is not
    empty once split on commas and trimmed, in comma order; a side whose flag
    is false or whose string is empty gives none. With the include string
    ["a, b ,,c"], its flag true and no exclude side, the list is exactly
    [--include=a], [--include=b], [--include=c]. *)
Theorem get_custom_args_tokens (w : world) :
  self_dict w !! "plugin" = Some VPlugin →
  ∃ incs excs : list string,
    result get_custom_args w = Ok (incs ++ excs)
    ∧ (apply_include_tags (plugin w) = true →
       include_tags (plugin w) ≠ EmptyString →
       incs = (λ tag, "--include=" +:+ tag)
                <$> tag_segments (include_tags (plugin w)))
    ∧ (apply_include_tags (plugin w) = false
       ∨ include_tags (plugin w) = EmptyString → incs = [])
    ∧ (apply_exclude_tags (plugin w) = true →
       exclude_tags (plugin w) ≠ EmptyString →
       excs = (λ tag, "--exclude=" +:+ tag)
                <$> tag_segments (exclude_tags (plugin w)))
    ∧ (apply_exclude_tags (plugin w) = false
       ∨ exclude_tags (plugin w) = EmptyString → excs = [])
    ∧ (apply_include_tags (plugin w) = true →
       include_tags (plugin w) = "a, b ,,c" →
       apply_exclude_tags (plugin w) = false
       ∨ exclude_tags (plugin w) = EmptyString →
       result get_custom_args w
       = Ok ["--include=a"; "--include=b"; "--include=c"]).
Proof.
  intros H. unfold result. rewrite (get_custom_args_run w H). simpl.
  eexists _, _. split; [reflexivity|].
  split_and!.
  - intros ->. apply side_tokens_on.
  - apply side_tokens_off.
  - intros ->. apply side_tokens_on.
  - apply side_tokens_off.
  - intros -> -> Hoff. by rewrite (side_tokens_off _ _ _ Hoff).
Qed.

Lemma get_custom_args_tokens_witness :
  ∃ incs excs : list string,
    result get_custom_args sample_world = Ok (incs ++ excs)
    ∧ (apply_include_tags (plugin sample_world) = true →
       include_tags (plugin sample_world) ≠ EmptyString →
       incs = (λ tag, "--include=" +:+ tag)
                <$> tag_segments (include_tags (plugin sample_world)))
    ∧ (apply_include_tags (plugin sample_world) = false
       ∨ include_tags (plugin sample_world) = EmptyString → incs = [])
    ∧ (apply_exclude_tags (plugin sample_world) = true →
       exclude_tags (plugin sample_world) ≠ EmptyString →
       excs = (λ tag, "--exclude=" +:+ tag)
                <$> tag_segments (exclude_tags (plugin sample_world)))
    ∧ (apply_exclude_tags (plugin sample_world) = false
       ∨ exclude_tags (plugin sample_world) = EmptyString → excs = [])
    ∧ (apply_include_tags (plugin sample_world) = true →
       include_tags (plugin sample_world) = "a, b ,,c" →
       apply_exclude_tags (plugin sample_world) = false
       ∨ exclude_tags (plugin sample_world) = EmptyString →
       result get_custom_args sample_world
       = Ok ["--include=a"; "--include=b"; "--include=c"]).
Proof. apply (get_custom_args_tokens sample_world). vm_compute. reflexivity. Defined.

(** C1, as stated, fails where both sides are applied: the include string
    ["a, b ,,c"] with its flag true, next to the exclude string ["x"] with
    its flag true, gives four tokens, the last one an exclude token. *)
Lemma get_custom_args_include_only_fails :
  self_dict both_world !! "plugin" = Some VPlugin
  ∧ apply_include_tags (plugin both_world) = true
  ∧ include_tags (plugin both_world) = "a, b ,,c"
  ∧ result get_custom_args both_world
    = Ok ["--include=a"; "--include=b"; "--include=c"; "--exclude=x"]
  ∧ result get_custom_args both_world
    ≠ Ok ["--include=a"; "--include=b"; "--include=c"].
Proof. split_and!; [by vm_compute..|]. vm_compute. discriminate. Qed.

(** C3. When [apply_include_tags] is false the returned list holds no
    [--include=] token, whatever [include_tags] is, and when
    [apply_exclude_tags] is false it holds no [--exclude=] token. *)
Theorem get_custom_args_flag_off (w : world) :
  self_dict w !! "plugin" = Some VPlugin →
  ∃ args : list string,
    result get_custom_args w = Ok args
    ∧ (apply_include_tags (plugin w) = false →
       Forall (λ token, ¬ is_include token) args)
    ∧ (apply_exclude_tags (plugin w) = false →
       Forall (λ token, ¬ is_exclude token) args).
Proof.
  intros H. unfold result. rewrite (get_custom_args_run w H). simpl.
  eexists. split; [reflexivity|]. split; intros ->.
  - rewrite (side_tokens_off "--include=") by auto. simpl.
    eapply Forall_impl; [apply side_tokens_exclude|].
    intros token He Hi. by apply (include_not_exclude token).
  - rewrite (side_tokens_off "--exclude=") by auto. rewrite app_nil_r.
    eapply Forall_impl; [apply side_tokens_include|].
    intros token Hi He. by apply (include_not_exclude token).
Qed.

Lemma get_custom_args_flag_off_witness :
  ∃ args : list string,
    result get_custom_args flag_off_world = Ok args
    ∧ (apply_include_tags (plugin flag_off_world) = false →
       Forall (λ token, ¬ is_include token) args)
    ∧ (apply_exclude_tags (plugin flag_off_world) = false →
       Forall (λ token, ¬ is_exclude token) args).
Proof. apply (get_custom_args_flag_off flag_off_world). vm_compute. reflexivity. Defined.

(** C5. When both apply flags are true and both tag strings give at least
    one token, the returned list is a non-empty run of [--include=] tokens
    followed by a non-empty run of [--exclude=] tokens: every [--include=]
    token stands at a smaller index than every [--exclude=] token. *)
Theorem get_custom_args_include_first (w : world) :
  self_dict w !! "plugin" = Some VPlugin →
  apply_include_tags (plugin w) = true →
  apply_exclude_tags (plugin w) = true →
  tag_segments (include_tags (plugin w)) ≠ [] →
  tag_segments (exclude_tags (plugin w)) ≠ [] →
  ∃ args incs excs : list string,
    result get_custom_args w = Ok args
    ∧ args = incs ++ excs
    ∧ incs ≠ [] ∧ excs ≠ []
    ∧ Forall is_include incs ∧ Forall is_exclude excs
    ∧ ∀ i j ti tj,
        args !! i = Some ti → args !! j = Some tj →
        is_include ti → is_exclude tj → i < j.
Proof.
  intros H Hai Hae Hi He. unfold result.
  rewrite (get_custom_args_run w H). simpl. rewrite Hai, Hae.
  eexists _, _, _. split; [reflexivity|]. split; [reflexivity|].
  assert (∀ option tags, tag_segments tags ≠ [] →
            side_tokens option true tags ≠ []) as Hne.
  { intros option tags Hseg. unfold side_tokens.
    destruct tags as [|c tags]; [done|]. simpl.
    intros Hnil. by apply fmap_nil_inv in Hnil. }
  split_and!; auto using side_tokens_include, side_tokens_exclude.
  intros i j ti tj. apply include_before_exclude;
    auto using side_tokens_include, side_tokens_exclude.
Qed.

Lemma get_custom_args_include_first_witness :
  ∃ args incs excs : list string,
    result get_custom_args both_world = Ok args
    ∧ args = incs ++ excs
    ∧ incs ≠ [] ∧ excs ≠ []
    ∧ Forall is_include incs ∧ Forall is_exclude excs
    ∧ ∀ i j ti tj,
        args !! i = Some ti → args !! j = Some tj →
        is_include ti → is_exclude tj → i < j.
Proof.
  apply (get_custom_args_include_first both_world);
    vm_compute; (reflexivity || discriminate).
Defined.

(** C8. [get_custom_args] only reads: whether it returns or raises, the
    state after the call is the state before it, so the four settings are
    unchanged and the plugin has received no [save_setting] call. *)
Theorem get_custom_args_frame (w : world) :
  final get_custom_args w = w
  ∧ save_calls (plugin (final get_custom_args w)) = save_calls (plugin w)
  ∧ apply_include_tags (plugin (final get_custom_args w))
    = apply_include_tags (plugin w)
  ∧ include_tags (plugin (final get_custom_args w)) = include_tags (plugin w)
  ∧ apply_exclude_tags (plugin (final get_custom_args w))
    = apply_exclude_tags (plugin w)
  ∧ exclude_tags (plugin (final get_custom_args w)) = exclude_tags (plugin w).
Proof. by rewrite (read_only_get_custom_args w). Qed.

(** ** [get_command_prefix] *)

Lemma BaseProfile_get_command_prefix_run w :
  BaseProfile_get_command_prefix w
  = (Ok (if String.eqb (os_name w) "nt" then ["pybot.bat"] else ["pybot"]), w).
Proof.
  unfold BaseProfile_get_command_prefix, bind, gets. simpl.
  by destruct (String.eqb _ _).
Qed.

Lemma PybotProfile_get_command_prefix_run w :
  PybotProfile_get_command_prefix w
  = (Ok (if String.eqb (os_name w) "nt" then ["pybot.bat"] else ["pybot"]), w).
Proof.
  unfold PybotProfile_get_command_prefix, bind, gets. simpl.
  by destruct (String.eqb _ _).
Qed.

Lemma get_command_prefix_run w :
  get_command_prefix w
  = (Ok (if String.eqb (os_name w) "nt" then ["pybot.bat"] else ["pybot"]), w).
Proof.
  unfold get_command_prefix, bind, gets. simpl.
  destruct (self_class w);
    [apply BaseProfile_get_command_prefix_run
    |apply PybotProfile_get_command_prefix_run].
Qed.

(** C4. On Windows, where [os.name] is ["nt"], [get_command_prefix] returns
    the one-element list [["pybot.bat"]], and on every other host the
    one-element list [["pybot"]]; this holds for the method of
    [BaseProfile], for the method of [PybotProfile], and for the call on an
    instance of either class. *)
Theorem get_command_prefix_by_os (w : world) :
  (os_name w = "nt" →
     result BaseProfile_get_command_prefix w = Ok ["pybot.bat"]
     ∧ result PybotProfile_get_command_prefix w = Ok ["pybot.bat"]
     ∧ result get_command_prefix w = Ok ["pybot.bat"])
  ∧ (os_name w ≠ "nt" →
     result BaseProfile_get_command_prefix w = Ok ["pybot"]
     ∧ result PybotProfile_get_command_prefix w = Ok ["pybot"]
     ∧ result get_command_prefix w = Ok ["pybot"]).
Proof.
  unfold result.
  rewrite BaseProfile_get_command_prefix_run,
    PybotProfile_get_command_prefix_run, get_command_prefix_run. simpl.
  destruct (String.eqb_spec (os_name w) "nt") as [Heq|Hne];
    split; intros; done.
Qed.

(** C9. The method that [PybotProfile] overrides behaves as the one it
    inherits would: for every [os.name] the two return the same list and
    leave the same state, so a call of [get_command_prefix] on an instance
    gives the same result whichever of the two classes the instance has. *)
Theorem PybotProfile_override_redundant (w : world) :
  PybotProfile_get_command_prefix w = BaseProfile_get_command_prefix w
  ∧ (∀ c, result get_command_prefix (set_self_class c w)
          = result BaseProfile_get_command_prefix w).
Proof.
  split.
  - by rewrite BaseProfile_get_command_prefix_run,
      PybotProfile_get_command_prefix_run.
  - intros c. unfold result.
    by rewrite get_command_prefix_run, BaseProfile_get_command_prefix_run.
Qed.

(** ** The checkbox handlers *)

(** C7. For a checkbox event whose checked state is [b],
    [OnIncludeCheckbox] makes exactly one call of the plugin's
    [save_setting], with the arguments ["apply_include_tags"], [b] and
    [delay=2], and [OnExcludeCheckbox] exactly one with
    ["apply_exclude_tags"], [b] and [delay=2]; both return. *)
Theorem checkbox_handlers_save (w : world) (evt : event) :
  self_dict w !! "plugin" = Some VPlugin →
  (result (OnIncludeCheckbox evt) w = Ok tt
   ∧ save_calls (plugin (final (OnIncludeCheckbox evt) w))
     = save_calls (plugin w)
       ++ [SaveCall "apply_include_tags" (VBool (IsChecked evt)) 2])
  ∧ (result (OnExcludeCheckbox evt) w = Ok tt
     ∧ save_calls (plugin (final (OnExcludeCheckbox evt) w))
       = save_calls (plugin w)
         ++ [SaveCall "apply_exclude_tags" (VBool (IsChecked evt)) 2]).
Proof.
  intros H.
  unfold result, final, OnIncludeCheckbox, OnExcludeCheckbox, set_setting.
  by rewrite !(plugin_save_setting_ok _ _ _ w H).
Qed.

Lemma checkbox_handlers_save_witness :
  (result (OnIncludeCheckbox (Event EVT_CHECKBOX false "")) sample_world = Ok tt
   ∧ save_calls (plugin (final (OnIncludeCheckbox (Event EVT_CHECKBOX false ""))
                               sample_world))
     = save_calls (plugin sample_world)
       ++ [SaveCall "apply_include_tags" (VBool false) 2])
  ∧ (result (OnExcludeCheckbox (Event EVT_CHECKBOX false "")) sample_world = Ok tt
     ∧ save_calls (plugin (final (OnExcludeCheckbox (Event EVT_CHECKBOX false ""))
                                 sample_world))
       = save_calls (plugin sample_world)
         ++ [SaveCall "apply_exclude_tags" (VBool false) 2]).
Proof.
  apply (checkbox_handlers_save sample_world (Event EVT_CHECKBOX false "")).
  vm_compute. reflexivity.
Defined.

(** ** Running [TagsPanel]

    The wx calls are followed on a store [objs ++ news], where [objs] is the
    store before the call and [news] the objects created since. *)

Section store.
Context (os : string) (pl : plugin_t) (objs : list wxobj)
  (c : cls) (d : gmap string pyval).

Lemma wx_new_at news binds o :
  wx_new o (World os pl (objs ++ news) binds c d)
  = (Ok (VRef (length objs + length news)),
     World os pl (objs ++ (news ++ [o])) binds c d).
Proof.
  unfold wx_new, set_wx_objects. simpl.
  by rewrite length_app, app_assoc.
Qed.

Lemma wx_method_at news binds k name f o o' :
  news !! k = Some o → f o = Some o' →
  wx_method (VRef (length objs + k)) name f
    (World os pl (objs ++ news) binds c d)
  = (Ok tt, World os pl (objs ++ <[k := o']> news) binds c d).
Proof.
  intros Hk Hf. unfold wx_method, set_wx_objects. simpl.
  rewrite lookup_app_r by lia.
  replace (length objs + k - length objs) with k by lia.
  rewrite Hk. simpl. rewrite Hf.
  by rewrite insert_app_r.
Qed.

Lemma Bind_at news binds k ev handler source o :
  news !! k = Some o →
  (∀ v h items cols, o ≠ GridBagSizer v h items cols) →
  Bind (VRef (length objs + k)) ev handler source
    (World os pl (objs ++ news) binds c d)
  = (Ok tt, World os pl (objs ++ news)
              (binds ++ [Binding (length objs + k) ev handler source]) c d).
Proof.
  intros Hk Ho. unfold Bind, set_wx_bindings. simpl.
  rewrite lookup_app_r by lia.
  replace (length objs + k - length objs) with k by lia.
  rewrite Hk. destruct o; try done. by destruct (Ho vgap hgap items growable_cols).
Qed.

Lemma create_checkbox_at news binds parent value title :
  _create_checkbox parent value title
    (World os pl (objs ++ news) binds c d)
  = (Ok (VRef (length objs + length news)),
     World os pl (objs ++ (news ++ [CheckBox parent wx_ID_ANY title value]))
       binds c d).
Proof.
  unfold _create_checkbox, wx_CheckBox, SetValue.
  rewrite (bind_ok _ _ _ _ _ (wx_new_at _ _ _)).
  erewrite bind_ok; [reflexivity|].
  erewrite wx_method_at; [|by apply list_lookup_middle|reflexivity].
  do 3 f_equal. rewrite <- (Nat.add_0_r (length news)) at 1.
  by rewrite insert_app_r.
Qed.

(** The handlers are methods of [BaseProfile]: [self.<handler>] is the
    bound method unless the instance dictionary shadows it. *)
Lemma getattr_self_method news binds attr m :
  class_dict PybotProfile !! attr = None →
  class_dict BaseProfile !! attr = Some (VMethod m) →
  getattr_self attr (World os pl news binds c d)
  = (Ok (default (VMethod m) (d !! attr)), World os pl news binds c d).
Proof.
  intros Hp Hb. unfold getattr_self. simpl.
  destruct (d !! attr); [done|].
  destruct c; cbn [mro class_lookup]; by rewrite ?Hp, Hb.
Qed.

Lemma plugin_attr_at {A} news binds attr (proj : plugin_t → A) :
  d !! "plugin" = Some VPlugin →
  plugin_attr attr proj (World os pl news binds c d)
  = (Ok (proj pl), World os pl news binds c d).
Proof. intros H. by rewrite plugin_attr_ok. Qed.
End store.

Ltac step_with lem :=
  erewrite bind_ok
    by (first [by apply lem
              |by eapply lem; [reflexivity..|try done]
              |by eapply lem; vm_compute]);
  cbn [length app List.length Datatypes.app insert list_insert].

(** On an instance that holds its plugin, [TagsPanel(parent)] returns a new
    panel, the first of the six objects it adds to the store, and changes
    neither the plugin nor the instance. *)
Lemma TagsPanel_run parent os pl objs binds c d :
  d !! "plugin" = Some VPlugin →
  TagsPanel parent (World os pl objs binds c d)
  = (Ok (VRef (length objs)),
     World os pl (objs ++ TagsPanel_objects parent pl (length objs))
       (binds ++ TagsPanel_bindings d (length objs)) c d).
Proof.
  intros H. unfold TagsPanel, wx_Panel, wx_TextCtrl, wx_GridBagSizer.
  rewrite <- (app_nil_r objs) at 1.
  step_with wx_new_at.
  step_with plugin_attr_at.
  step_with create_checkbox_at.
  step_with plugin_attr_at.
  step_with create_checkbox_at.
  step_with plugin_attr_at.
  step_with wx_new_at.
  step_with plugin_attr_at.
  step_with wx_new_at.
  step_with getattr_self_method. step_with Bind_at.
  step_with getattr_self_method. step_with Bind_at.
  step_with getattr_self_method. step_with Bind_at.
  step_with getattr_self_method. step_with Bind_at.
  step_with wx_new_at.
  unfold Add, AddGrowableCol, SetSizerAndFit.
  do 7 step_with wx_method_at.
  unfold ret, TagsPanel_objects, TagsPanel_bindings.
  rewrite !Nat.add_0_r, <- !app_assoc. reflexivity.
Qed.

(** Two calls of [TagsPanel] build two panels: the references differ. *)
Lemma TagsPanel_twice_distinct (w : world) (p1 p2 : pyval) :
  self_dict w !! "plugin" = Some VPlugin →
  ∃ r1 r2,
    result (TagsPanel p1) w = Ok (VRef r1)
    ∧ result (TagsPanel p2) (final (TagsPanel p1) w) = Ok (VRef r2)
    ∧ r1 ≠ r2.
Proof.
  intros H. destruct w as [os pl objs binds c d]. simpl in H.
  unfold result, final. rewrite TagsPanel_run by done. simpl.
  rewrite TagsPanel_run by done. simpl.
  exists (length objs), (length (objs ++ TagsPanel_objects p1 pl (length objs))).
  split_and!; [done..|]. rewrite length_app. simpl. lia.
Qed.

(** ** [get_toolbar] *)

(** A cached toolbar is returned as it is, and nothing changes. *)
Lemma get_toolbar_cached parent w toolbar :
  self_dict w !! "toolbar" = Some toolbar → toolbar ≠ VNone →
  get_toolbar parent w = (Ok toolbar, w).
Proof.
  intros Ht Hne. unfold get_toolbar.
  rewrite (bind_ok _ _ _ _ _ (getattr_self_dict _ _ _ Ht)).
  destruct toolbar; try done;
    by rewrite (bind_ok _ _ w tt w), (getattr_self_dict _ _ _ Ht).
Qed.

(** The first call builds the panel with [TagsPanel(parent)] and stores it
    in [self.toolbar]. *)
Lemma get_toolbar_first parent os pl objs binds c d :
  d !! "plugin" = Some VPlugin → d !! "toolbar" = Some VNone →
  get_toolbar parent (World os pl objs binds c d)
  = (Ok (VRef (length objs)),
     World os pl (objs ++ TagsPanel_objects parent pl (length objs))
       (binds ++ TagsPanel_bindings d (length objs)) c
       (<["toolbar" := VRef (length objs)]> d)).
Proof.
  intros Hp Ht. unfold get_toolbar.
  erewrite bind_ok by (by apply getattr_self_dict).
  erewrite bind_ok.
  - apply getattr_self_dict. simpl. apply lookup_insert_eq.
  - erewrite bind_ok by (by apply TagsPanel_run). reflexivity.
Qed.

(** ** Instances as the host has them *)

Lemma new_constructed c w : constructed (final (new c VPlugin) w).
Proof.
  unfold constructed, final, new, __init__, setattr_self, bind, modify. simpl.
  split_and!.
  - by rewrite lookup_insert_ne, lookup_insert_eq.
  - by rewrite lookup_insert_eq.
  - intros attr Hp Ht. by rewrite !lookup_insert_ne.
Qed.

Lemma new_toolbar c w :
  self_dict (final (new c VPlugin) w) !! "toolbar" = Some VNone
  ∧ self_class (final (new c VPlugin) w) = c.
Proof.
  unfold final, new, __init__, setattr_self, bind, modify. simpl.
  by rewrite lookup_insert_eq.
Qed.

(** The text handlers on a constructed instance: [self.includeTags] and
    [self.excludeTags] are attributes neither of the instance nor of its
    classes. *)
Lemma getattr_self_missing attr w :
  constructed w →
  attr ≠ "plugin" → attr ≠ "toolbar" →
  class_lookup (mro PybotProfile) attr = None →
  getattr_self attr w
  = (Raise (AttributeError (cls_name (self_class w)) attr), w).
Proof.
  intros (_ & _ & Hd) Hp Ht Hc. unfold getattr_self.
  rewrite (Hd attr Hp Ht).
  assert (class_lookup (mro (self_class w)) attr = None) as ->; [|done].
  destruct (self_class w); [|done].
  cbn [mro class_lookup] in *. by destruct (class_dict PybotProfile !! attr).
Qed.

Lemma OnIncludeTagsChanged_run evt w :
  constructed w →
  OnIncludeTagsChanged evt w
  = (Raise (AttributeError (cls_name (self_class w)) "includeTags"), w).
Proof.
  intros H. unfold OnIncludeTagsChanged.
  by erewrite bind_raise by (by apply getattr_self_missing).
Qed.

Lemma OnExcludeTagsChanged_run evt w :
  constructed w →
  OnExcludeTagsChanged evt w
  = (Raise (AttributeError (cls_name (self_class w)) "excludeTags"), w).
Proof.
  intros H. unfold OnExcludeTagsChanged.
  by erewrite bind_raise by (by apply getattr_self_missing).
Qed.

(** What a call can change on a constructed instance: the plugin, new wx
    objects and bindings after the existing ones, and the [toolbar]
    attribute when it is still [None]. *)
Lemma run_call_effect (cl : call) (w : world) :
  constructed w →
  ∃ pl news binds d,
    run_call cl w
    = World (os_name w) pl (wx_objects w ++ news) (wx_bindings w ++ binds)
        (self_class w) d
    ∧ (d = self_dict w
       ∨ self_dict w !! "toolbar" = Some VNone
         ∧ d = <["toolbar" := VRef (length (wx_objects w))]> (self_dict w)).
Proof.
  intros Hc. pose proof Hc as (Hp & [t Ht] & Hd).
  assert (∃ pl, w = World (os_name w) pl (wx_objects w ++ [])
                      (wx_bindings w ++ []) (self_class w) (self_dict w))
    as Hsame.
  { exists (plugin w). rewrite !app_nil_r. by destruct w. }
  assert (∀ f, ∃ pl, set_plugin f w
                     = World (os_name w) pl (wx_objects w ++ [])
                         (wx_bindings w ++ []) (self_class w) (self_dict w))
    as Hplugin.
  { intros f. exists (f (plugin w)). by rewrite !app_nil_r. }
  destruct cl; simpl.
  - (* get_toolbar *)
    destruct (decide (t = VNone)) as [->|Hne].
    + destruct w as [os pl objs binds c d]. simpl in *.
      unfold final. rewrite get_toolbar_first by done. simpl. eauto 10.
    + unfold final. rewrite (get_toolbar_cached _ _ _ Ht Hne). simpl.
      destruct Hsame as [pl Hw]. eauto 10.
  - rewrite read_only_get_custom_args. destruct Hsame as [pl Hw]. eauto 10.
  - rewrite read_only_get_command_prefix. destruct Hsame as [pl Hw]. eauto 10.
  - (* TagsPanel *)
    destruct w as [os pl objs binds c d]. simpl in *.
    unfold final. rewrite TagsPanel_run by done. simpl. eauto 10.
  - (* _create_checkbox *)
    destruct w as [os pl objs binds c d]. simpl in *.
    pose proof (create_checkbox_at os pl objs c d [] binds parent value title)
      as Hcb.
    rewrite app_nil_r in Hcb. unfold final. rewrite Hcb. simpl.
    exists pl, [CheckBox parent wx_ID_ANY title value], [], d.
    by rewrite !app_nil_r; auto.
  - unfold final, set_setting. rewrite plugin_save_setting_ok by done. simpl.
    destruct (Hplugin (save_setting name value 2)) as [pl Hw]. eauto 10.
  - unfold final, OnExcludeCheckbox, set_setting.
    rewrite plugin_save_setting_ok by done. simpl.
    destruct (Hplugin (save_setting "apply_exclude_tags"
                         (VBool (IsChecked evt)) 2)) as [pl Hw]. eauto 10.
  - unfold final, OnIncludeCheckbox, set_setting.
    rewrite plugin_save_setting_ok by done. simpl.
    destruct (Hplugin (save_setting "apply_include_tags"
                         (VBool (IsChecked evt)) 2)) as [pl Hw]. eauto 10.
  - unfold final. rewrite OnIncludeTagsChanged_run by done. simpl.
    destruct Hsame as [pl Hw]. eauto 10.
  - unfold final. rewrite OnExcludeTagsChanged_run by done. simpl.
    destruct Hsame as [pl Hw]. eauto 10.
Qed.

(** Every call keeps an instance constructed, keeps its class and the host,
    keeps the objects of the wx store where they are, and keeps a toolbar
    that is set. *)
Lemma run_call_keeps (cl : call) (w : world) :
  constructed w →
  constructed (run_call cl w)
  ∧ self_class (run_call cl w) = self_class w
  ∧ os_name (run_call cl w) = os_name w
  ∧ wx_objects w `prefix_of` wx_objects (run_call cl w)
  ∧ ∀ toolbar, self_dict w !! "toolbar" = Some toolbar → toolbar ≠ VNone →
      self_dict (run_call cl w) !! "toolbar" = Some toolbar.
Proof.
  intros Hc. destruct (run_call_effect cl w Hc) as (pl & news & binds & d & -> & Hd).
  simpl. destruct Hc as (Hp & Ht & Hother).
  split_and!; try done.
  - unfold constructed. simpl.
    destruct Hd as [->|[Hnone ->]]; [done|].
    split_and!.
    + by rewrite lookup_insert_ne.
    + by rewrite lookup_insert_eq.
    + intros attr ? ?. rewrite lookup_insert_ne by done. auto.
  - by exists news.
  - intros toolbar Htb Hne.
    destruct Hd as [->|[Hnone ->]]; [done|]. congruence.
Qed.

Lemma run_calls_keeps (cs : list call) (w : world) :
  constructed w →
  constructed (run_calls cs w)
  ∧ self_class (run_calls cs w) = self_class w
  ∧ os_name (run_calls cs w) = os_name w
  ∧ wx_objects w `prefix_of` wx_objects (run_calls cs w)
  ∧ ∀ toolbar, self_dict w !! "toolbar" = Some toolbar → toolbar ≠ VNone →
      self_dict (run_calls cs w) !! "toolbar" = Some toolbar.
Proof.
  revert w. induction cs as [|cl cs IH]; intros w Hc; simpl.
  - by split_and!.
  - destruct (run_call_keeps cl w Hc) as (Hc1 & Hcls1 & Hos1 & Hpre1 & Htb1).
    destruct (IH _ Hc1) as (Hc2 & Hcls2 & Hos2 & Hpre2 & Htb2).
    split_and!; [done|congruence|congruence|by etrans|auto].
Qed.

Lemma host_state_constructed c w0 cs :
  constructed (host_state c w0 cs) ∧ self_class (host_state c w0 cs) = c.
Proof.
  unfold host_state.
  destruct (run_calls_keeps cs _ (new_constructed c w0)) as (Hc & Hcls & _).
  split; [done|]. rewrite Hcls. apply new_toolbar.
Qed.

(** A call of [get_toolbar] on a constructed instance returns a panel that
    is then cached: the cached one when there is one, else a new object of
    the store, built by [TagsPanel] for the parent given. *)
Lemma get_toolbar_caches (w : world) (parent : pyval) :
  constructed w →
  ∃ panel : pyval,
    result (get_toolbar parent) w = Ok panel
    ∧ panel ≠ VNone
    ∧ self_dict (final (get_toolbar parent) w) !! "toolbar" = Some panel
    ∧ (self_dict w !! "toolbar" = Some VNone →
       panel = VRef (length (wx_objects w))
       ∧ wx_objects (final (get_toolbar parent) w)
         = wx_objects w
           ++ TagsPanel_objects parent (plugin w) (length (wx_objects w)))
    ∧ (self_dict w !! "toolbar" ≠ Some VNone →
       final (get_toolbar parent) w = w).
Proof.
  intros (Hp & [t Ht] & _).
  destruct (decide (t = VNone)) as [->|Hne].
  - destruct w as [os pl objs binds c d]. simpl in *.
    exists (VRef (length objs)). unfold result, final.
    rewrite get_toolbar_first by done. simpl.
    split_and!; try done. apply lookup_insert_eq.
  - exists t. unfold result, final.
    rewrite (get_toolbar_cached parent w t) by done. simpl.
    split_and!; try done. intros Hnone. congruence.
Qed.

(** C6. Two calls of [get_toolbar] on an instance return the identical
    panel object. The first call, when no panel is cached, creates the panel
    as a new object of the store and caches it in [self.toolbar]; the second
    call returns the cached panel and changes nothing: it builds no object,
    whatever parent it is given. *)
Theorem get_toolbar_idempotent (w : world) (p1 p2 : pyval) :
  constructed w →
  ∃ panel : pyval,
    result (get_toolbar p1) w = Ok panel
    ∧ panel ≠ VNone
    ∧ self_dict (final (get_toolbar p1) w) !! "toolbar" = Some panel
    ∧ result (get_toolbar p2) (final (get_toolbar p1) w) = Ok panel
    ∧ final (get_toolbar p2) (final (get_toolbar p1) w)
      = final (get_toolbar p1) w
    ∧ (self_dict w !! "toolbar" = Some VNone →
       panel = VRef (length (wx_objects w))
       ∧ wx_objects (final (get_toolbar p1) w)
         = wx_objects w
           ++ TagsPanel_objects p1 (plugin w) (length (wx_objects w)))
    ∧ (self_dict w !! "toolbar" ≠ Some VNone → final (get_toolbar p1) w = w).
Proof.
  intros Hc.
  destruct (get_toolbar_caches w p1 Hc)
    as (panel & Hres & Hne & Hcached & Hfirst & Hagain).
  assert (get_toolbar p2 (final (get_toolbar p1) w)
          = (Ok panel, final (get_toolbar p1) w)) as Hsecond
    by (by apply get_toolbar_cached).
  exists panel. split_and!; try done.
  - unfold result. by rewrite Hsecond.
  - unfold final at 1. by rewrite Hsecond.
Qed.

Lemma get_toolbar_idempotent_witness :
  ∃ panel : pyval,
    result (get_toolbar (VRef 7)) sample_world = Ok panel
    ∧ panel ≠ VNone
    ∧ self_dict (final (get_toolbar (VRef 7)) sample_world) !! "toolbar"
      = Some panel
    ∧ result (get_toolbar (VRef 9)) (final (get_toolbar (VRef 7)) sample_world)
      = Ok panel
    ∧ final (get_toolbar (VRef 9)) (final (get_toolbar (VRef 7)) sample_world)
      = final (get_toolbar (VRef 7)) sample_world
    ∧ (self_dict sample_world !! "toolbar" = Some VNone →
       panel = VRef (length (wx_objects sample_world))
       ∧ wx_objects (final (get_toolbar (VRef 7)) sample_world)
         = wx_objects sample_world
           ++ TagsPanel_objects (VRef 7) (plugin sample_world)
                (length (wx_objects sample_world)))
    ∧ (self_dict sample_world !! "toolbar" ≠ Some VNone →
       final (get_toolbar (VRef 7)) sample_world = sample_world).
Proof.
  apply (get_toolbar_idempotent sample_world (VRef 7) (VRef 9)).
  unfold constructed. split_and!.
  - vm_compute. reflexivity.
  - exists VNone. vm_compute. reflexivity.
  - intros attr Hp Ht. unfold sample_world, fresh, final, new, __init__,
      setattr_self, bind, modify. simpl.
    rewrite !lookup_insert_ne by done. apply lookup_empty.
Defined.

(** C10. Once [get_toolbar(p1)] has been called, no later call on the
    instance replaces the cached panel: after any calls of the methods and
    handlers, [self.toolbar] is still the panel that the first call
    returned, and [get_toolbar(p2)] returns it for every [p2]. When the first
    call built the panel, it is still the object created then, with parent
    [p1]. *)
Theorem toolbar_never_replaced (w : world) (p1 p2 : pyval) (cs : list call) :
  constructed w →
  ∃ panel : pyval,
    result (get_toolbar p1) w = Ok panel
    ∧ self_dict (run_calls cs (final (get_toolbar p1) w)) !! "toolbar"
      = Some panel
    ∧ result (get_toolbar p2) (run_calls cs (final (get_toolbar p1) w))
      = Ok panel
    ∧ (self_dict w !! "toolbar" = Some VNone →
       ∃ sizer,
         panel = VRef (length (wx_objects w))
         ∧ wx_objects (run_calls cs (final (get_toolbar p1) w))
             !! length (wx_objects w)
           = Some (Panel p1 wx_ID_ANY sizer)).
Proof.
  intros Hc.
  destruct (get_toolbar_caches w p1 Hc)
    as (panel & Hres & Hne & Hcached & Hfirst & _).
  destruct (run_call_keeps (call_get_toolbar p1) w Hc) as (Hc1 & _).
  simpl in Hc1.
  destruct (run_calls_keeps cs _ Hc1) as (Hc2 & _ & _ & Hpre & Hkeep).
  specialize (Hkeep panel Hcached Hne).
  exists panel. split_and!; try done.
  - unfold result. by rewrite (get_toolbar_cached p2 _ panel).
  - intros Hnone. destruct (Hfirst Hnone) as [-> Hobjs].
    eexists. split; [done|].
    eapply prefix_lookup_Some; [|exact Hpre].
    rewrite Hobjs, lookup_app_r by lia.
    rewrite Nat.sub_diag. reflexivity.
Qed.

Lemma toolbar_never_replaced_witness :
  ∃ panel : pyval,
    result (get_toolbar (VRef 7)) sample_world = Ok panel
    ∧ self_dict (run_calls later_calls (final (get_toolbar (VRef 7)) sample_world))
        !! "toolbar"
      = Some panel
    ∧ result (get_toolbar (VRef 9))
        (run_calls later_calls (final (get_toolbar (VRef 7)) sample_world))
      = Ok panel
    ∧ (self_dict sample_world !! "toolbar" = Some VNone →
       ∃ sizer,
         panel = VRef (length (wx_objects sample_world))
         ∧ wx_objects (run_calls later_calls
                         (final (get_toolbar (VRef 7)) sample_world))
             !! length (wx_objects sample_world)
           = Some (Panel (VRef 7) wx_ID_ANY sizer)).
Proof.
  apply (toolbar_never_replaced sample_world (VRef 7) (VRef 9) later_calls).
  unfold constructed. split_and!.
  - vm_compute. reflexivity.
  - exists VNone. vm_compute. reflexivity.
  - intros attr Hp Ht. unfold sample_world, fresh, final, new, __init__,
      setattr_self, bind, modify. simpl.
    rewrite !lookup_insert_ne by done. apply lookup_empty.
Defined.

(** ** The text handlers *)

(** C2 fails on the code. On every instance that the host constructed, of
    either class and after any calls, [OnIncludeTagsChanged] raises
    [AttributeError] for [includeTags] and [OnExcludeTagsChanged] for
    [excludeTags]: [TagsPanel] keeps the two text controls in local
    variables and no method assigns these attributes. The handlers make no
    [save_setting] call and leave the state as it was. *)
Theorem text_handlers_raise (c : cls) (w0 : world) (cs : list call)
    (evt : event) :
  result (OnIncludeTagsChanged evt) (host_state c w0 cs)
  = Raise (AttributeError (cls_name c) "includeTags")
  ∧ result (OnExcludeTagsChanged evt) (host_state c w0 cs)
    = Raise (AttributeError (cls_name c) "excludeTags")
  ∧ final (OnIncludeTagsChanged evt) (host_state c w0 cs) = host_state c w0 cs
  ∧ final (OnExcludeTagsChanged evt) (host_state c w0 cs) = host_state c w0 cs.
Proof.
  destruct (host_state_constructed c w0 cs) as [Hc Hcls].
  unfold result, final.
  rewrite OnIncludeTagsChanged_run, OnExcludeTagsChanged_run by done.
  simpl. by rewrite Hcls.
Qed.

(** The text event of the include control after the toolbar was shown. *)
Example text_event_after_toolbar :
  OnIncludeTagsChanged (Event EVT_TEXT false "smoke")
    (host_state PybotProfile sample_world [call_get_toolbar (VRef 7)])
  = (Raise (AttributeError "PybotProfile" "includeTags"),
     host_state PybotProfile sample_world [call_get_toolbar (VRef 7)]).
Proof.
  apply OnIncludeTagsChanged_run, host_state_constructed.
Qed.

(** * Further properties of the module *)

(** ** Splitting and trimming *)

Lemma contains_append c (a b : string) :
  contains c (a +:+ b) ↔ contains c a ∨ contains c b.
Proof.
  induction a as [|c' a IH]; simpl; [tauto|]. rewrite IH. tauto.
Qed.

Lemma strip_contains c s : contains c (PyStr.strip s) → contains c s.
Proof.
  destruct (strip_spec s) as (l & r & Hs & _). intros Hc.
  rewrite Hs, !contains_append. auto.
Qed.

Lemma lstrip_id s : ¬ starts_with_space s → PyStr.lstrip s = s.
Proof.
  destruct s as [|c s]; simpl; [done|]. by destruct (PyStr.isspace c).
Qed.

Lemma rstrip_id s : ¬ ends_with_space s → PyStr.rstrip s = s.
Proof.
  induction s as [|c s IH]; simpl; [done|]. intros Hend.
  destruct s as [|c' s].
  - simpl. by destruct (PyStr.isspace c).
  - rewrite IH by done. done.
Qed.

Lemma strip_clean tag : clean_tag tag → PyStr.strip tag = tag.
Proof.
  intros (_ & _ & Hs & He). unfold PyStr.strip.
  by rewrite (lstrip_id tag Hs), rstrip_id.
Qed.

Lemma strip_all_space s : all_space s → PyStr.strip s = EmptyString.
Proof.
  unfold PyStr.strip. induction s as [|c s IH]; simpl; [done|].
  intros [-> Hs]. auto.
Qed.

Lemma split_length sep s :
  length (PyStr.split sep s) = S (count_char sep s).
Proof.
  induction s as [|c s IH]; simpl; [done|].
  destruct (Ascii.eqb c sep); simpl; [by rewrite IH|].
  destruct (PyStr.split sep s); simpl in *; lia.
Qed.

Lemma split_no_sep_id sep s : ¬ contains sep s → PyStr.split sep s = [s].
Proof.
  induction s as [|c s IH]; simpl; [done|]. intros Hc.
  destruct (Ascii.eqb_spec c sep) as [->|Hne]; [tauto|].
  rewrite IH by tauto. done.
Qed.

Lemma split_append_sep sep (s rest : string) :
  ¬ contains sep s →
  PyStr.split sep (s +:+ String sep rest) = s :: PyStr.split sep rest.
Proof.
  induction s as [|c s IH]; simpl; intros Hc.
  - by rewrite Ascii.eqb_refl.
  - destruct (Ascii.eqb_spec c sep) as [->|Hne]; [tauto|].
    rewrite IH by tauto. done.
Qed.

(** Splitting what [join] made of separator-free strings gives them back. *)
Lemma split_join sep (tags : list string) :
  tags ≠ [] → Forall (λ tag, ¬ contains sep tag) tags →
  PyStr.split sep (PyStr.join (String sep EmptyString) tags) = tags.
Proof.
  induction tags as [|tag tags IH]; [done|]. intros _ Hall.
  inversion_clear Hall as [|? ? Htag Htags].
  destruct tags as [|tag' tags].
  - simpl. by apply split_no_sep_id.
  - rewrite join_cons by done.
    change (String sep EmptyString +:+ ?x) with (String sep x).
    rewrite split_append_sep by done. by rewrite IH.
Qed.

Lemma split_blank s : blank s → Forall all_space (PyStr.split "," s).
Proof.
  induction s as [|c s IH]; simpl.
  - by repeat constructor.
  - intros [Hc Hs]. specialize (IH Hs).
    destruct (Ascii.eqb_spec c ",") as [->|Hne].
    + by constructor.
    + destruct Hc as [?|Hc]; [done|].
      destruct (PyStr.split "," s) as [|seg segs]; [by repeat constructor|].
      inversion_clear IH. by constructor.
Qed.

Lemma tag_segments_blank s : blank s → tag_segments s = [].
Proof.
  intros Hs. unfold tag_segments.
  induction (split_blank s Hs) as [|seg segs Hseg _ IH]; [done|].
  rewrite fmap_cons, filter_cons_False; [done|].
  rewrite strip_all_space by done. by intros ?.
Qed.

Lemma tag_segments_clean tag tags :
  tag ∈ tag_segments tags → clean_tag tag.
Proof.
  unfold tag_segments. rewrite list_elem_of_filter, list_elem_of_fmap.
  intros (Hne & seg & -> & Hin).
  destruct (strip_spec seg) as (l & r & _ & _ & _ & Hs & He).
  split_and!; try done.
  intros Hc%strip_contains.
  pose proof (split_no_sep "," tags) as Hall.
  rewrite Forall_forall in Hall. by apply (Hall seg).
Qed.

Lemma tag_segments_join (tags : list string) :
  Forall clean_tag tags → tag_segments (PyStr.join "," tags) = tags.
Proof.
  intros Hall. destruct (decide (tags = [])) as [->|Hne]; [done|].
  unfold tag_segments. rewrite split_join; [|done|].
  - induction Hall as [|tag tags Htag _ IH]; [done|].
    rewrite fmap_cons, filter_cons_True.
    + rewrite (strip_clean tag Htag). f_equal.
      destruct (decide (tags = [])) as [->|Hne']; [done|by apply IH].
    + rewrite (strip_clean tag Htag). by destruct Htag.
  - eapply Forall_impl; [exact Hall|]. by intros tag (_ & Hc & _).
Qed.

(** ** More on [get_custom_args] *)

Lemma side_tokens_clean option apply tags :
  Forall (λ token, ∃ tag, token = option +:+ tag ∧ clean_tag tag)
         (side_tokens option apply tags).
Proof.
  unfold side_tokens. destruct (_ && _); [|constructor].
  rewrite Forall_fmap, Forall_forall. intros tag Hin. simpl.
  exists tag. split; [done|]. by apply (tag_segments_clean tag tags).
Qed.

Lemma side_tokens_length option apply tags :
  length (side_tokens option apply tags) ≤ S (count_char "," tags).
Proof.
  unfold side_tokens, tag_segments. destruct (_ && _); simpl; [|lia].
  rewrite length_fmap, <- split_length.
  etrans; [apply length_filter|]. by rewrite length_fmap.
Qed.

(** X1. Every token that [get_custom_args] returns is [--include=] or
    [--exclude=] followed by a tag that is not empty, holds no comma and
    neither starts nor ends with whitespace. *)
Theorem get_custom_args_tokens_clean (w : world) :
  self_dict w !! "plugin" = Some VPlugin →
  ∃ args : list string,
    result get_custom_args w = Ok args
    ∧ Forall (λ token,
                ∃ tag, (token = "--include=" +:+ tag
                        ∨ token = "--exclude=" +:+ tag)
                       ∧ clean_tag tag) args.
Proof.
  intros H. unfold result. rewrite (get_custom_args_run w H). simpl.
  eexists. split; [reflexivity|]. apply Forall_app. split.
  - eapply Forall_impl; [apply side_tokens_clean|].
    intros token (tag & -> & Hc). eauto.
  - eapply Forall_impl; [apply side_tokens_clean|].
    intros token (tag & -> & Hc). eauto.
Qed.

Lemma get_custom_args_tokens_clean_witness :
  ∃ args : list string,
    result get_custom_args both_world = Ok args
    ∧ Forall (λ token,
                ∃ tag, (token = "--include=" +:+ tag
                        ∨ token = "--exclude=" +:+ tag)
                       ∧ clean_tag tag) args.
Proof.
  apply (get_custom_args_tokens_clean both_world). vm_compute. reflexivity.
Defined.

(** X2. Tag strings made of commas and whitespace only give no token: with
    such strings on both sides [get_custom_args] returns the empty list,
    whatever the apply flags are. *)
Theorem get_custom_args_blank (w : world) :
  self_dict w !! "plugin" = Some VPlugin →
  blank (include_tags (plugin w)) →
  blank (exclude_tags (plugin w)) →
  result get_custom_args w = Ok [].
Proof.
  intros H Hi He. unfold result. rewrite (get_custom_args_run w H). simpl.
  unfold side_tokens. rewrite !tag_segments_blank by done.
  by do 2 destruct (_ && _).
Qed.

Lemma get_custom_args_blank_witness :
  result get_custom_args blank_world = Ok [].
Proof.
  apply (get_custom_args_blank blank_world).
  - vm_compute. reflexivity.
  - vm_compute. intuition.
  - vm_compute. intuition.
Defined.

(** X3. Round trip with [",".join]: when both flags are true and the two
    tag strings are comma-joined lists of clean tags, [get_custom_args]
    returns one [--include=] token per include tag and then one [--exclude=]
    token per exclude tag, in the order of the lists, duplicates and
    whitespace inside a tag kept. *)
Theorem get_custom_args_join (w : world) (incs excs : list string) :
  self_dict w !! "plugin" = Some VPlugin →
  apply_include_tags (plugin w) = true →
  apply_exclude_tags (plugin w) = true →
  Forall clean_tag incs → Forall clean_tag excs →
  include_tags (plugin w) = PyStr.join "," incs →
  exclude_tags (plugin w) = PyStr.join "," excs →
  result get_custom_args w
  = Ok (((λ tag, "--include=" +:+ tag) <$> incs)
        ++ ((λ tag, "--exclude=" +:+ tag) <$> excs)).
Proof.
  intros H Hai Hae Hi He Hinc Hexc. unfold result.
  rewrite (get_custom_args_run w H). simpl. rewrite Hai, Hae, Hinc, Hexc.
  assert (∀ option tags, Forall clean_tag tags →
            side_tokens option true (PyStr.join "," tags)
            = (λ tag, option +:+ tag) <$> tags) as Hside.
  { intros option tags Hall. unfold side_tokens.
    rewrite tag_segments_join by done.
    destruct tags as [|tag tags]; [done|].
    inversion_clear Hall as [|? ? (Hne & _) _].
    assert (PyStr.truthy (PyStr.join "," (tag :: tags)) = true) as ->; [|done].
    destruct tag as [|c tag]; [done|]. by destruct tags. }
  by rewrite !Hside.
Qed.

Lemma get_custom_args_join_witness :
  result get_custom_args clean_world
  = Ok (((λ tag, "--include=" +:+ tag) <$> ["smoke"; "fast run"; "smoke"])
        ++ ((λ tag, "--exclude=" +:+ tag) <$> ["wip"])).
Proof.
  apply (get_custom_args_join clean_world).
  - vm_compute. reflexivity.
  - reflexivity.
  - reflexivity.
  - repeat constructor; vm_compute; (discriminate || intuition discriminate).
  - repeat constructor; vm_compute; (discriminate || intuition discriminate).
  - reflexivity.
  - reflexivity.
Defined.

(** X4. [get_custom_args] returns at most one token per comma-separated
    segment: the length of the list is at most the number of commas of
    [include_tags] plus the number of commas of [exclude_tags] plus two. *)
Theorem get_custom_args_length (w : world) :
  self_dict w !! "plugin" = Some VPlugin →
  ∃ args : list string,
    result get_custom_args w = Ok args
    ∧ length args ≤ count_char "," (include_tags (plugin w))
                    + count_char "," (exclude_tags (plugin w)) + 2.
Proof.
  intros H. unfold result. rewrite (get_custom_args_run w H). simpl.
  eexists. split; [reflexivity|]. rewrite length_app.
  pose proof (side_tokens_length "--include=" (apply_include_tags (plugin w))
                (include_tags (plugin w))).
  pose proof (side_tokens_length "--exclude=" (apply_exclude_tags (plugin w))
                (exclude_tags (plugin w))).
  lia.
Qed.

Lemma get_custom_args_length_witness :
  ∃ args : list string,
    result get_custom_args both_world = Ok args
    ∧ length args ≤ count_char "," (include_tags (plugin both_world))
                    + count_char "," (exclude_tags (plugin both_world)) + 2.
Proof.
  apply (get_custom_args_length both_world). vm_compute. reflexivity.
Defined.

(** ** An instance without its plugin *)

Lemma getattr_plugin_unset w :
  plugin_unset w → getattr_self "plugin" w = (Ok VNone, w).
Proof.
  unfold plugin_unset, getattr_self. intros H.
  destruct (self_dict w !! "plugin") as [v|]; simpl in H; [by subst|].
  by destruct (self_class w).
Qed.

Lemma plugin_attr_unset {A} attr (proj : plugin_t → A) w :
  plugin_unset w →
  plugin_attr attr proj w = (Raise (AttributeError "NoneType" attr), w).
Proof.
  intros H. unfold plugin_attr.
  by rewrite (bind_ok _ _ _ _ _ (getattr_plugin_unset w H)).
Qed.

Lemma plugin_save_setting_unset name value delay w :
  plugin_unset w →
  plugin_save_setting name value delay w
  = (Raise (AttributeError "NoneType" "save_setting"), w).
Proof.
  intros H. unfold plugin_save_setting.
  by rewrite (bind_ok _ _ _ _ _ (getattr_plugin_unset w H)).
Qed.

(** X5. While [self.plugin] is [None], [get_custom_args] raises
    [AttributeError] at its first read, [self.plugin.apply_include_tags],
    and [set_setting] and the two checkbox handlers raise it at
    [self.plugin.save_setting]; none of them changes the state. *)
Theorem unset_plugin_raises (w : world) (name : string) (value : pyval)
    (evt : event) :
  plugin_unset w →
  get_custom_args w
  = (Raise (AttributeError "NoneType" "apply_include_tags"), w)
  ∧ set_setting name value w
    = (Raise (AttributeError "NoneType" "save_setting"), w)
  ∧ OnIncludeCheckbox evt w
    = (Raise (AttributeError "NoneType" "save_setting"), w)
  ∧ OnExcludeCheckbox evt w
    = (Raise (AttributeError "NoneType" "save_setting"), w).
Proof.
  intros H. split_and!.
  - unfold get_custom_args, py_and.
    by rewrite (bind_raise _ _ _ _ _
                  (bind_raise _ _ _ _ _ (plugin_attr_unset _ _ w H))).
  - by apply plugin_save_setting_unset.
  - by apply plugin_save_setting_unset.
  - by apply plugin_save_setting_unset.
Qed.

Lemma unset_plugin_raises_witness :
  get_custom_args unset_world
  = (Raise (AttributeError "NoneType" "apply_include_tags"), unset_world)
  ∧ set_setting "include_tags" (VStr "smoke") unset_world
    = (Raise (AttributeError "NoneType" "save_setting"), unset_world)
  ∧ OnIncludeCheckbox (Event EVT_CHECKBOX true "") unset_world
    = (Raise (AttributeError "NoneType" "save_setting"), unset_world)
  ∧ OnExcludeCheckbox (Event EVT_CHECKBOX true "") unset_world
    = (Raise (AttributeError "NoneType" "save_setting"), unset_world).
Proof.
  apply (unset_plugin_raises unset_world "include_tags" (VStr "smoke")
           (Event EVT_CHECKBOX true "")).
  vm_compute. reflexivity.
Defined.

(** X6. While [self.plugin] is [None] and no panel is cached,
    [get_toolbar(parent)] raises [AttributeError] inside [TagsPanel], after
    [wx.Panel(parent)] was created: the store has gained that one panel,
    without children or sizer, no handler is bound, and [self.toolbar] is
    still [None], so the half-built panel is not cached. *)
Theorem get_toolbar_unset_plugin (w : world) (parent : pyval) :
  plugin_unset w →
  self_dict w !! "toolbar" = Some VNone →
  result (get_toolbar parent) w
  = Raise (AttributeError "NoneType" "apply_include_tags")
  ∧ wx_objects (final (get_toolbar parent) w)
    = wx_objects w ++ [Panel parent wx_ID_ANY None]
  ∧ wx_bindings (final (get_toolbar parent) w) = wx_bindings w
  ∧ self_dict (final (get_toolbar parent) w) = self_dict w
  ∧ plugin (final (get_toolbar parent) w) = plugin w.
Proof.
  intros H Ht.
  set (w1 := set_wx_objects (λ os, os ++ [Panel parent wx_ID_ANY None]) w).
  assert (plugin_unset w1) as H1 by done.
  assert (get_toolbar parent w
          = (Raise (AttributeError "NoneType" "apply_include_tags"), w1))
    as Hrun.
  { unfold get_toolbar.
    rewrite (bind_ok _ _ _ _ _ (getattr_self_dict _ _ _ Ht)).
    apply bind_raise, bind_raise. unfold TagsPanel, wx_Panel.
    erewrite bind_ok by reflexivity.
    apply bind_raise. by apply plugin_attr_unset. }
  unfold result, final. by rewrite Hrun.
Qed.

Lemma get_toolbar_unset_plugin_witness :
  result (get_toolbar (VRef 7)) unset_world
  = Raise (AttributeError "NoneType" "apply_include_tags")
  ∧ wx_objects (final (get_toolbar (VRef 7)) unset_world)
    = wx_objects unset_world ++ [Panel (VRef 7) wx_ID_ANY None]
  ∧ wx_bindings (final (get_toolbar (VRef 7)) unset_world)
    = wx_bindings unset_world
  ∧ self_dict (final (get_toolbar (VRef 7)) unset_world)
    = self_dict unset_world
  ∧ plugin (final (get_toolbar (VRef 7)) unset_world) = plugin unset_world.
Proof.
  apply (get_toolbar_unset_plugin unset_world (VRef 7)); vm_compute; reflexivity.
Defined.

(** ** The panel that [TagsPanel] builds *)

Lemma lookup_new {A} (objs news : list A) k :
  (objs ++ news) !! (length objs + k) = news !! k.
Proof.
  rewrite lookup_app_r by lia. f_equal. lia.
Qed.

(** X7. On an instance that holds its plugin, [TagsPanel(parent)] returns a
    new panel with the given parent, and the controls it puts on the panel
    show the plugin's settings: [GetValue] of the two checkboxes is
    [apply_include_tags] and [apply_exclude_tags], [GetValue] of the two
    text controls is [include_tags] and [exclude_tags]. The call changes
    neither the plugin nor the instance, so it does not cache the panel. *)
Theorem TagsPanel_shows_settings (w : world) (parent : pyval) :
  self_dict w !! "plugin" = Some VPlugin →
  result (TagsPanel parent) w = Ok (VRef (length (wx_objects w)))
  ∧ wx_objects (final (TagsPanel parent) w)
    = wx_objects w
      ++ TagsPanel_objects parent (plugin w) (length (wx_objects w))
  ∧ result (GetValue (VRef (length (wx_objects w) + 1)))
           (final (TagsPanel parent) w)
    = Ok (VBool (apply_include_tags (plugin w)))
  ∧ result (GetValue (VRef (length (wx_objects w) + 2)))
           (final (TagsPanel parent) w)
    = Ok (VBool (apply_exclude_tags (plugin w)))
  ∧ result (GetValue (VRef (length (wx_objects w) + 3)))
           (final (TagsPanel parent) w)
    = Ok (VStr (include_tags (plugin w)))
  ∧ result (GetValue (VRef (length (wx_objects w) + 4)))
           (final (TagsPanel parent) w)
    = Ok (VStr (exclude_tags (plugin w)))
  ∧ plugin (final (TagsPanel parent) w) = plugin w
  ∧ self_dict (final (TagsPanel parent) w) = self_dict w.
Proof.
  intros H. destruct w as [os pl objs binds c d]. simpl in *.
  unfold result, final. rewrite TagsPanel_run by done. simpl.
  split_and!; try done; unfold GetValue; simpl; by rewrite lookup_new.
Qed.

Lemma TagsPanel_shows_settings_witness :
  result (TagsPanel (VRef 7)) sample_world
  = Ok (VRef (length (wx_objects sample_world)))
  ∧ wx_objects (final (TagsPanel (VRef 7)) sample_world)
    = wx_objects sample_world
      ++ TagsPanel_objects (VRef 7) (plugin sample_world)
           (length (wx_objects sample_world))
  ∧ result (GetValue (VRef (length (wx_objects sample_world) + 1)))
           (final (TagsPanel (VRef 7)) sample_world)
    = Ok (VBool (apply_include_tags (plugin sample_world)))
  ∧ result (GetValue (VRef (length (wx_objects sample_world) + 2)))
           (final (TagsPanel (VRef 7)) sample_world)
    = Ok (VBool (apply_exclude_tags (plugin sample_world)))
  ∧ result (GetValue (VRef (length (wx_objects sample_world) + 3)))
           (final (TagsPanel (VRef 7)) sample_world)
    = Ok (VStr (include_tags (plugin sample_world)))
  ∧ result (GetValue (VRef (length (wx_objects sample_world) + 4)))
           (final (TagsPanel (VRef 7)) sample_world)
    = Ok (VStr (exclude_tags (plugin sample_world)))
  ∧ plugin (final (TagsPanel (VRef 7)) sample_world) = plugin sample_world
  ∧ self_dict (final (TagsPanel (VRef 7)) sample_world)
    = self_dict sample_world.
Proof.
  apply (TagsPanel_shows_settings sample_world (VRef 7)).
  vm_compute. reflexivity.
Defined.

(** X8. On a constructed instance [TagsPanel] makes four bindings, after
    the existing ones and in this order: on the panel, checkbox events of
    the include checkbox to [OnIncludeCheckbox] and of the exclude checkbox
    to [OnExcludeCheckbox]; on the include text control, text events to
    [OnIncludeTagsChanged]; on the exclude text control, text events to
    [OnExcludeTagsChanged]. *)
Theorem TagsPanel_binds_handlers (w : world) (parent : pyval) :
  constructed w →
  wx_bindings (final (TagsPanel parent) w)
  = wx_bindings w
    ++ [ Binding (length (wx_objects w)) EVT_CHECKBOX
           (VMethod m_OnIncludeCheckbox)
           (Some (VRef (length (wx_objects w) + 1)));
         Binding (length (wx_objects w)) EVT_CHECKBOX
           (VMethod m_OnExcludeCheckbox)
           (Some (VRef (length (wx_objects w) + 2)));
         Binding (length (wx_objects w) + 3) EVT_TEXT
           (VMethod m_OnIncludeTagsChanged) None;
         Binding (length (wx_objects w) + 4) EVT_TEXT
           (VMethod m_OnExcludeTagsChanged) None ].
Proof.
  intros (Hp & _ & Hd). destruct w as [os pl objs binds c d]. simpl in *.
  unfold final. rewrite TagsPanel_run by done. simpl.
  unfold TagsPanel_bindings. by rewrite !Hd.
Qed.

Lemma constructed_sample_world : constructed sample_world.
Proof. apply new_constructed. Qed.

Lemma TagsPanel_binds_handlers_witness :
  wx_bindings (final (TagsPanel (VRef 7)) sample_world)
  = wx_bindings sample_world
    ++ [ Binding (length (wx_objects sample_world)) EVT_CHECKBOX
           (VMethod m_OnIncludeCheckbox)
           (Some (VRef (length (wx_objects sample_world) + 1)));
         Binding (length (wx_objects sample_world)) EVT_CHECKBOX
           (VMethod m_OnExcludeCheckbox)
           (Some (VRef (length (wx_objects sample_world) + 2)));
         Binding (length (wx_objects sample_world) + 3) EVT_TEXT
           (VMethod m_OnIncludeTagsChanged) None;
         Binding (length (wx_objects sample_world) + 4) EVT_TEXT
           (VMethod m_OnExcludeTagsChanged) None ].
Proof.
  apply (TagsPanel_binds_handlers sample_world (VRef 7)).
  apply constructed_sample_world.
Defined.

(** ** The cache and [__init__] *)

(** X10. [__init__] sets [self.toolbar] to [None]: when it is run again on
    an instance whose panel is cached, the cache is dropped, and the next
    [get_toolbar(p2)] builds a second panel, for [p2], which is another
    object than the first; the first panel stays in the store. *)
Theorem init_again_drops_toolbar (w : world) (p1 p2 : pyval) :
  self_dict w !! "plugin" = Some VPlugin →
  self_dict w !! "toolbar" = Some VNone →
  result (get_toolbar p1) w = Ok (VRef (length (wx_objects w)))
  ∧ result (get_toolbar p2)
           (final (__init__ VPlugin) (final (get_toolbar p1) w))
    = Ok (VRef (length (wx_objects w) + 6))
  ∧ wx_objects (final (get_toolbar p2)
                  (final (__init__ VPlugin) (final (get_toolbar p1) w)))
    = wx_objects w
      ++ TagsPanel_objects p1 (plugin w) (length (wx_objects w))
      ++ TagsPanel_objects p2 (plugin w) (length (wx_objects w) + 6).
Proof.
  intros Hp Ht. destruct w as [os pl objs binds c d]. simpl in *.
  unfold result, final. rewrite get_toolbar_first by done. simpl.
  unfold __init__, setattr_self, bind, modify, set_self_dict. simpl.
  rewrite get_toolbar_first.
  - simpl. rewrite length_app, <- app_assoc. by simpl.
  - by rewrite lookup_insert_ne, lookup_insert_eq.
  - by rewrite lookup_insert_eq.
Qed.

Lemma init_again_drops_toolbar_witness :
  result (get_toolbar (VRef 7)) sample_world
  = Ok (VRef (length (wx_objects sample_world)))
  ∧ result (get_toolbar (VRef 9))
           (final (__init__ VPlugin) (final (get_toolbar (VRef 7)) sample_world))
    = Ok (VRef (length (wx_objects sample_world) + 6))
  ∧ wx_objects (final (get_toolbar (VRef 9))
                  (final (__init__ VPlugin)
                     (final (get_toolbar (VRef 7)) sample_world)))
    = wx_objects sample_world
      ++ TagsPanel_objects (VRef 7) (plugin sample_world)
           (length (wx_objects sample_world))
      ++ TagsPanel_objects (VRef 9) (plugin sample_world)
           (length (wx_objects sample_world) + 6).
Proof.
  apply (init_again_drops_toolbar sample_world (VRef 7) (VRef 9));
    vm_compute; reflexivity.
Defined.

(** ** The text handlers when the attribute exists *)

(** X11. If the instance has an attribute [includeTags] that refers to a
    text control, [OnIncludeTagsChanged] returns and makes exactly one call
    [save_setting("include_tags", text, delay=2)] with the text of that
    control, untrimmed; and if it has an attribute [excludeTags] that
    refers to a text control, [OnExcludeTagsChanged] does the same with
    ["exclude_tags"]. Each handler needs its own attribute only, and the
    event it is given plays no part. *)
Theorem text_handlers_with_attribute (w : world) (evt : event) :
  self_dict w !! "plugin" = Some VPlugin →
  (∀ r parent id size text,
     self_dict w !! "includeTags" = Some (VRef r) →
     wx_objects w !! r = Some (TextCtrl parent id size text) →
     OnIncludeTagsChanged evt w
     = (Ok tt, set_plugin (save_setting "include_tags" (VStr text) 2) w)
     ∧ save_calls (plugin (final (OnIncludeTagsChanged evt) w))
       = save_calls (plugin w) ++ [SaveCall "include_tags" (VStr text) 2])
  ∧ (∀ r parent id size text,
       self_dict w !! "excludeTags" = Some (VRef r) →
       wx_objects w !! r = Some (TextCtrl parent id size text) →
       OnExcludeTagsChanged evt w
       = (Ok tt, set_plugin (save_setting "exclude_tags" (VStr text) 2) w)
       ∧ save_calls (plugin (final (OnExcludeTagsChanged evt) w))
         = save_calls (plugin w) ++ [SaveCall "exclude_tags" (VStr text) 2]).
Proof.
  intros Hp. split; intros r parent id size text Hattr Hobj.
  - assert (OnIncludeTagsChanged evt w
            = (Ok tt, set_plugin (save_setting "include_tags" (VStr text) 2) w))
      as Hrun.
    { unfold OnIncludeTagsChanged, set_setting.
      rewrite (bind_ok _ _ _ _ _ (getattr_self_dict _ _ _ Hattr)).
      erewrite bind_ok; [by apply plugin_save_setting_ok|].
      unfold GetValue. by rewrite Hobj. }
    unfold final. by rewrite Hrun.
  - assert (OnExcludeTagsChanged evt w
            = (Ok tt, set_plugin (save_setting "exclude_tags" (VStr text) 2) w))
      as Hrun.
    { unfold OnExcludeTagsChanged, set_setting.
      rewrite (bind_ok _ _ _ _ _ (getattr_self_dict _ _ _ Hattr)).
      erewrite bind_ok; [by apply plugin_save_setting_ok|].
      unfold GetValue. by rewrite Hobj. }
    unfold final. by rewrite Hrun.
Qed.

Lemma text_handlers_with_attribute_witness :
  (OnIncludeTagsChanged (Event EVT_TEXT false "typed") include_only_world
   = (Ok tt, set_plugin (save_setting "include_tags" (VStr "a, b ,,c") 2)
               include_only_world)
   ∧ save_calls (plugin (final (OnIncludeTagsChanged
                                  (Event EVT_TEXT false "typed"))
                               include_only_world))
     = save_calls (plugin include_only_world)
       ++ [SaveCall "include_tags" (VStr "a, b ,,c") 2])
  ∧ (OnExcludeTagsChanged (Event EVT_TEXT false "typed") patched_world
     = (Ok tt, set_plugin (save_setting "exclude_tags" (VStr "x") 2)
                 patched_world)
     ∧ save_calls (plugin (final (OnExcludeTagsChanged
                                    (Event EVT_TEXT false "typed"))
                                 patched_world))
       = save_calls (plugin patched_world)
         ++ [SaveCall "exclude_tags" (VStr "x") 2]).
Proof.
  split.
  - eapply (proj1 (text_handlers_with_attribute include_only_world
                     (Event EVT_TEXT false "typed") eq_refl));
      vm_compute; reflexivity.
  - eapply (proj2 (text_handlers_with_attribute patched_world
                     (Event EVT_TEXT false "typed") eq_refl));
      vm_compute; reflexivity.
Defined.

(** ** What the calls leave alone *)

(** X12. Whatever methods and handlers are called on a constructed
    instance, the wx objects and the bindings that exist stay as they are
    and where they are (new ones come after them), the class of the instance
    and [os.name] stay the same, and no attribute of the instance other than
    [toolbar] is set, changed or removed. *)
Theorem calls_only_append (cs : list call) (w : world) :
  constructed w →
  wx_objects w `prefix_of` wx_objects (run_calls cs w)
  ∧ wx_bindings w `prefix_of` wx_bindings (run_calls cs w)
  ∧ self_class (run_calls cs w) = self_class w
  ∧ os_name (run_calls cs w) = os_name w
  ∧ ∀ attr, attr ≠ "toolbar" →
      self_dict (run_calls cs w) !! attr = self_dict w !! attr.
Proof.
  revert w. induction cs as [|cl cs IH]; intros w Hc; simpl.
  - by split_and!.
  - destruct (run_call_keeps cl w Hc) as (Hc1 & _).
    destruct (IH _ Hc1) as (Ho & Hb & Hcls & Hos & Hd). clear IH.
    destruct (run_call_effect cl w Hc) as (pl & news & binds & d & Hrun & Hd1).
    rewrite Hrun in Ho, Hb, Hcls, Hos, Hd. simpl in *.
    rewrite <- Hrun in *.
    split_and!; try done.
    + etrans; [|exact Ho]. by exists news.
    + etrans; [|exact Hb]. by exists binds.
    + intros attr Hattr. rewrite (Hd attr Hattr).
      destruct Hd1 as [->|[_ ->]]; [done|]. by rewrite lookup_insert_ne.
Qed.

Lemma calls_only_append_witness :
  wx_objects sample_world `prefix_of` wx_objects (run_calls later_calls sample_world)
  ∧ wx_bindings sample_world
      `prefix_of` wx_bindings (run_calls later_calls sample_world)
  ∧ self_class (run_calls later_calls sample_world) = self_class sample_world
  ∧ os_name (run_calls later_calls sample_world) = os_name sample_world
  ∧ ∀ attr, attr ≠ "toolbar" →
      self_dict (run_calls later_calls sample_world) !! attr
      = self_dict sample_world !! attr.
Proof.
  apply (calls_only_append later_calls sample_world).
  apply constructed_sample_world.
Defined.

(** X13. On a constructed instance only [set_setting] and the two checkbox
    handlers reach the plugin's [save_setting], each exactly once and with
    [delay=2]; [get_toolbar], [TagsPanel], [_create_checkbox],
    [get_custom_args], [get_command_prefix] and the two text handlers leave
    the plugin, its settings and its log of calls, as it is. *)
Theorem plugin_writers (cl : call) (w : world) :
  constructed w →
  (calls_save_setting cl = false → plugin (run_call cl w) = plugin w)
  ∧ (calls_save_setting cl = true →
     ∃ name value,
       plugin (run_call cl w) = save_setting name value 2 (plugin w)
       ∧ save_calls (plugin (run_call cl w))
         = save_calls (plugin w) ++ [SaveCall name value 2]).
Proof.
  intros Hc. pose proof Hc as (Hp & [t Ht] & Hd).
  assert (∀ name value,
            save_calls (save_setting name value 2 (plugin w))
            = save_calls (plugin w) ++ [SaveCall name value 2]) as Hlog.
  { intros name value. unfold save_setting.
    destruct value; try done; by repeat destruct (String.eqb _ _). }
  destruct cl; simpl; (split; [intros Hw|intros Hw]); try done.
  - destruct (decide (t = VNone)) as [->|Hne].
    + destruct w as [os pl objs binds c d]. simpl in *.
      unfold final. by rewrite get_toolbar_first.
    + unfold final. by rewrite (get_toolbar_cached _ _ _ Ht Hne).
  - by rewrite read_only_get_custom_args.
  - by rewrite read_only_get_command_prefix.
  - destruct w as [os pl objs binds c d]. simpl in *.
    unfold final. by rewrite TagsPanel_run.
  - destruct w as [os pl objs binds c d]. simpl in *.
    pose proof (create_checkbox_at os pl objs c d [] binds parent value title)
      as Hcb.
    rewrite app_nil_r in Hcb. unfold final. by rewrite Hcb.
  - unfold final, set_setting. rewrite plugin_save_setting_ok by done.
    eexists _, _. split; [reflexivity|apply Hlog].
  - unfold final, OnExcludeCheckbox, set_setting.
    rewrite plugin_save_setting_ok by done.
    eexists _, _. split; [reflexivity|apply Hlog].
  - unfold final, OnIncludeCheckbox, set_setting.
    rewrite plugin_save_setting_ok by done.
    eexists _, _. split; [reflexivity|apply Hlog].
  - unfold final. by rewrite OnIncludeTagsChanged_run.
  - unfold final. by rewrite OnExcludeTagsChanged_run.
Qed.

Lemma plugin_writers_witness :
  (calls_save_setting (call_TagsPanel (VRef 7)) = false →
   plugin (run_call (call_TagsPanel (VRef 7)) sample_world)
   = plugin sample_world)
  ∧ (calls_save_setting (call_TagsPanel (VRef 7)) = true →
     ∃ name value,
       plugin (run_call (call_TagsPanel (VRef 7)) sample_world)
       = save_setting name value 2 (plugin sample_world)
       ∧ save_calls (plugin (run_call (call_TagsPanel (VRef 7)) sample_world))
         = save_calls (plugin sample_world) ++ [SaveCall name value 2]).
Proof.
  apply (plugin_writers (call_TagsPanel (VRef 7)) sample_world).
  apply constructed_sample_world.
Defined.

(** ** Handlers and arguments together *)

(** X14. With the host's [save_setting] assigning the setting, the
    checkbox handlers switch a side of the argument list on and off: after
    [OnIncludeCheckbox] for an event with checked state [b],
    [get_custom_args] returns the include tokens of [include_tags] when [b]
    is true and none when it is false, followed by the exclude tokens as
    before; and the same for [OnExcludeCheckbox] and the exclude side. *)
Theorem checkbox_switches_side (w : world) (evt : event) :
  self_dict w !! "plugin" = Some VPlugin →
  result get_custom_args (final (OnIncludeCheckbox evt) w)
  = Ok (side_tokens "--include=" (IsChecked evt) (include_tags (plugin w))
        ++ side_tokens "--exclude=" (apply_exclude_tags (plugin w))
                       (exclude_tags (plugin w)))
  ∧ result get_custom_args (final (OnExcludeCheckbox evt) w)
    = Ok (side_tokens "--include=" (apply_include_tags (plugin w))
                      (include_tags (plugin w))
          ++ side_tokens "--exclude=" (IsChecked evt) (exclude_tags (plugin w))).
Proof.
  intros H.
  unfold result, final, OnIncludeCheckbox, OnExcludeCheckbox, set_setting.
  rewrite !plugin_save_setting_ok by done. simpl.
  by rewrite !get_custom_args_run.
Qed.

Lemma checkbox_switches_side_witness :
  result get_custom_args
         (final (OnIncludeCheckbox (Event EVT_CHECKBOX false "")) both_world)
  = Ok (side_tokens "--include=" false (include_tags (plugin both_world))
        ++ side_tokens "--exclude=" (apply_exclude_tags (plugin both_world))
                       (exclude_tags (plugin both_world)))
  ∧ result get_custom_args
           (final (OnExcludeCheckbox (Event EVT_CHECKBOX false "")) both_world)
    = Ok (side_tokens "--include=" (apply_include_tags (plugin both_world))
                      (include_tags (plugin both_world))
          ++ side_tokens "--exclude=" false (exclude_tags (plugin both_world))).
Proof.
  apply (checkbox_switches_side both_world (Event EVT_CHECKBOX false "")).
  vm_compute. reflexivity.
Defined.
